(** * Agent orchestration layer: agents, coordinator, client and server

    A shallow embedding of [src/agents/base_agent.py] and
    [src/agents/types/coordinator_agent.py], with the constructors and the
    task helpers of the researcher and coder agents, of the HTTP client
    [src/core/ollama_client.py], of [src/core/model_manager.py] and of the
    endpoints of [src/server/app.py].  The streaming methods of the client
    ([generate_stream], [pull_model]) and the settings are left out.

    Conventions of the embedding:
    - Python [str] is [string] (a sequence of bytes; non-ASCII text is its
      UTF-8 encoding).  [len] and slices count characters, not bytes
      ([str_len], [str_take]); [str.upper] is the interpreter's
      ([py_upper]); [str.lower] is embedded for ASCII strings.
    - A Python [dict] is an insertion-ordered association list ([PyDict]):
      assignment to an existing key replaces the value in place, assignment
      to a new key appends.
    - Agents are objects shared by reference.  An agent handle carries the
      identity of the object and its (never reassigned) configuration; the
      mutable fields [conversation_history] and [available_agents] live in a
      store indexed by the identity, so that two handles with the same
      identity alias the same history.  An identity the store does not know
      has the fields [__init__] gives a new object: no turns, no agents.
    - [async] methods are awaited one after the other by their callers, so
      they are embedded as sequential computations in a state-and-exception
      monad over the [World].
    - The inference transport ([OllamaClient]) is an interface: its
      [generate] and [chat] operations are arbitrary state transformers that
      either return or raise.  The world records every call issued to the
      transport, with its outcome, in [events]. *)

From Stdlib Require Import Ascii Floats.
From stdpp Require Import gmap strings list pretty.

Set Warnings "-inexact-float,-register-all".

(** ** Python values, as far as the agents handle them *)

Inductive pyval : Type :=
| PNone
| PBool (b : bool)
| PInt (z : Z)
| PFloat (f : float)
| PStr (s : string)
| PList (l : list pyval)
| PDict (d : list (string * pyval)).

(** [type(v).__name__] *)
Definition py_type_name (v : pyval) : string :=
  match v with
  | PNone => "NoneType"
  | PBool _ => "bool"
  | PInt _ => "int"
  | PFloat _ => "float"
  | PStr _ => "str"
  | PList _ => "list"
  | PDict _ => "dict"
  end.

(** Exceptions (subclasses of [Exception]): the class name and [str(e)]. *)
Inductive exn : Type :=
| Exception (cls : string) (msg : string).

Definition exn_str (e : exn) : string :=
  match e with Exception _ msg => msg end.

Definition AttributeError (v : pyval) (attr : string) : exn :=
  Exception "AttributeError"
    ("'" +:+ py_type_name v +:+ "' object has no attribute '" +:+ attr +:+ "'").

Inductive outcome (A : Type) : Type :=
| Ok (a : A)
| Raise (e : exn).
Arguments Ok {A} a.
Arguments Raise {A} e.

Definition is_ok {A} (o : outcome A) : bool :=
  match o with Ok _ => true | Raise _ => false end.

(** ** Insertion-ordered dictionaries *)

Module PyDict.
Section Dict.
Context {V : Type}.

Definition t := list (string * V).

(** [d.get(k)] / [d[k]] *)
Fixpoint get (k : string) (d : list (string * V)) : option V :=
  match d with
  | [] => None
  | (k', v) :: d' => if decide (k = k') then Some v else get k d'
  end.

(** [k in d] *)
Definition contains (k : string) (d : list (string * V)) : bool :=
  match get k d with Some _ => true | None => false end.

(** [d[k] = v]: an existing key keeps its position, a new key goes last. *)
Fixpoint set (k : string) (v : V) (d : list (string * V)) : list (string * V) :=
  match d with
  | [] => [(k, v)]
  | (k', v') :: d' =>
      if decide (k = k') then (k, v) :: d' else (k', v') :: set k v d'
  end.

(** [list(d.keys())] *)
Definition keys (d : list (string * V)) : list string := map fst d.

(** The keys of a dictionary are pairwise distinct. *)
Definition wf (d : list (string * V)) : Prop := NoDup (keys d).
End Dict.
Arguments t V : clear implicits.
End PyDict.

(** [v.get(k, default)] on an arbitrary value: only [dict] has the method. *)
Definition py_get (v : pyval) (k : string) (dflt : pyval) : outcome pyval :=
  match v with
  | PDict d => Ok (default dflt (PyDict.get k d))
  | _ => Raise (AttributeError v "get")
  end.

(** ** Data model *)

(** [AgentConfig] *)
Record AgentConfig : Type := {
  name : string;
  model : string;
  system_prompt : string;
  temperature : float;
  max_tokens : option Z;
  description : string;
}.

(** One entry of [conversation_history]: [{"role": ..., "content": ...}]. *)
Record Turn : Type := {
  role : string;
  content : pyval;
}.

Definition user_turn (text : pyval) : Turn :=
  {| role := "user"; content := text |}.
Definition assistant_turn (text : pyval) : Turn :=
  {| role := "assistant"; content := text |}.

(** A reference to an agent object. *)
Record BaseAgent : Type := {
  agent_id : nat;
  config : AgentConfig;
}.

(** Arguments of [OllamaClient.generate] as [BaseAgent.run] passes them. *)
Record GenRequest : Type := {
  g_model : string;
  g_prompt : string;
  g_system : string;
  g_temperature : float;
  g_max_tokens : option Z;
}.

(** Arguments of [OllamaClient.chat]. *)
Record ChatRequest : Type := {
  c_model : string;
  c_messages : list Turn;
  c_temperature : float;
  c_max_tokens : option Z;
}.

(** A call issued to the transport, with what came back. *)
Inductive Event : Type :=
| EvGenerate (req : GenRequest) (res : outcome string)
| EvChat (req : ChatRequest) (res : outcome (PyDict.t pyval)).

Definition event_ok (ev : Event) : bool :=
  match ev with
  | EvGenerate _ res => is_ok res
  | EvChat _ res => is_ok res
  end.

Inductive Level : Type := INFO | WARNING | ERROR.

(** The inference transport: [generate] and [chat] of [OllamaClient], acting
    on a transport state [B]. *)
Class Client (B : Type) : Type := {
  client_generate : B → GenRequest → outcome string * B;
  client_chat : B → ChatRequest → outcome (PyDict.t pyval) * B;
}.

(** What the interpreter brings: [repr] of values other than strings ([str]
    of a string is the string itself), and [str.upper], which follows the
    interpreter's Unicode tables. *)
Class PyRuntime : Type := {
  py_repr : pyval → string;
  py_upper : string → string;
}.

Definition py_str `{PyRuntime} (v : pyval) : string :=
  match v with
  | PStr s => s
  | _ => py_repr v
  end.

Definition nl : string := String "010"%char "".

(** A [str] is held as its UTF-8 encoding, so one character is one byte that
    is not a continuation byte ([10xxxxxx]) together with the continuation
    bytes after it. *)
Definition utf8_continuation (c : ascii) : bool :=
  bool_decide (128 ≤ nat_of_ascii c < 192).

(** [len(s)] *)
Fixpoint str_len (s : string) : nat :=
  match s with
  | EmptyString => 0
  | String c s' =>
      if utf8_continuation c then str_len s' else S (str_len s')
  end.

(** [s[:n]] *)
Fixpoint str_take (n : nat) (s : string) : string :=
  match s with
  | EmptyString => EmptyString
  | String c s' =>
      if utf8_continuation c then String c (str_take n s')
      else match n with
           | 0 => EmptyString
           | S n' => String c (str_take n' s')
           end
  end.

(** [str.upper] on ASCII strings, where it needs no Unicode tables: the
    [py_upper] of the examples. *)
Definition upper_ascii (c : ascii) : ascii :=
  let n := nat_of_ascii c in
  if decide (97 ≤ n ∧ n ≤ 122) then ascii_of_nat (n - 32) else c.

Fixpoint upper (s : string) : string :=
  match s with
  | EmptyString => EmptyString
  | String c s' => String (upper_ascii c) (upper s')
  end.

Section Model.
Context {B : Type} `{!Client B} `{!PyRuntime}.

(** ** The world: object store, transport state, call trace and log *)

Record World : Type := {
  histories : gmap nat (list Turn);
  registries : gmap nat (PyDict.t BaseAgent);
  next_id : nat;
  backend : B;
  events : list Event;
  logs : list (Level * string);
}.

Definition M (A : Type) : Type := World → outcome A * World.

Definition ret {A} (a : A) : M A := λ w, (Ok a, w).

Definition raise {A} (e : exn) : M A := λ w, (Raise e, w).

Definition bind {A C} (m : M A) (k : A → M C) : M C :=
  λ w, match m w with
       | (Ok a, w') => k a w'
       | (Raise e, w') => (Raise e, w')
       end.

(** [try: body except Exception as e: handler(e)] *)
Definition try_except {A} (body : M A) (handler : exn → M A) : M A :=
  λ w, match body w with
       | (Ok a, w') => (Ok a, w')
       | (Raise e, w') => handler e w'
       end.

Definition lift {A} (o : outcome A) : M A := λ w, (o, w).
End Model.

Arguments World B : clear implicits.
Arguments M B A : clear implicits.

Notation "'do' x <- m ; k" := (bind m (λ x, k))
  (at level 10, x name, m at level 100, k at level 200, only parsing).

(** ** [BaseAgent] *)

Section BaseAgent.
Context {B : Type} `{!Client B} `{!PyRuntime}.

(** [logger.info], [logger.warning], [logger.error] *)
Definition log (lvl : Level) (msg : string) : M B unit := λ w,
  (Ok tt,
   {| histories := histories w; registries := registries w;
      next_id := next_id w; backend := backend w; events := events w;
      logs := logs w ++ [(lvl, msg)] |}).

(** [self.conversation_history] of the object behind a handle. *)
Definition history_of (w : World B) (self : BaseAgent) : list Turn :=
  default [] (histories w !! agent_id self).

Definition get_history (self : BaseAgent) : M B (list Turn) := λ w,
  (Ok (history_of w self), w).

Definition set_history (self : BaseAgent) (h : list Turn) : M B unit := λ w,
  (Ok tt,
   {| histories := <[agent_id self := h]> (histories w);
      registries := registries w; next_id := next_id w;
      backend := backend w; events := events w; logs := logs w |}).

(** [self.conversation_history.append(turn)] *)
Definition history_append (self : BaseAgent) (turn : Turn) : M B unit :=
  do h <- get_history self ;
  set_history self (h ++ [turn]).

(** [await self.client.generate(...)] *)
Definition generate (req : GenRequest) : M B string := λ w,
  let '(res, b') := client_generate (backend w) req in
  (res,
   {| histories := histories w; registries := registries w;
      next_id := next_id w; backend := b';
      events := events w ++ [EvGenerate req res]; logs := logs w |}).

(** [await self.client.chat(...)] *)
Definition chat_completion (req : ChatRequest) : M B (PyDict.t pyval) := λ w,
  let '(res, b') := client_chat (backend w) req in
  (res,
   {| histories := histories w; registries := registries w;
      next_id := next_id w; backend := b';
      events := events w ++ [EvChat req res]; logs := logs w |}).

(** [BaseAgent.__init__]: a new object with an empty history. *)
Definition BaseAgent_init (cfg : AgentConfig) : M B BaseAgent := λ w,
  let self := {| agent_id := next_id w; config := cfg |} in
  (do _ <- set_history self [] ;
   do _ <- log INFO ("Agent initialized: " +:+ name cfg +:+ " using model "
                +:+ model cfg) ;
   ret self)
    {| histories := histories w; registries := registries w;
       next_id := S (next_id w); backend := backend w;
       events := events w; logs := logs w |}.

(** [[f"{k}: {v}" for k, v in context.items()]] *)
Definition context_lines (items : PyDict.t pyval) : list string :=
  map (λ '(k, v), k +:+ ": " +:+ py_str v) items.

(** [BaseAgent._prepare_prompt]; [if context:] holds for a dictionary
    with at least one entry. *)
Definition _prepare_prompt (task : string)
    (context : option (PyDict.t pyval)) : string :=
  match context with
  | Some ((_ :: _) as items) =>
      let context_str := String.concat nl (context_lines items) in
      "Context:" +:+ nl +:+ context_str +:+ nl +:+ nl +:+ "Task:" +:+ nl +:+ task
  | _ => task
  end.

(** The request [run] sends for a prompt. *)
Definition run_request (self : BaseAgent) (prompt : string) : GenRequest :=
  {| g_model := model (config self);
     g_prompt := prompt;
     g_system := system_prompt (config self);
     g_temperature := temperature (config self);
     g_max_tokens := max_tokens (config self) |}.

(** [BaseAgent.run] *)
Definition run (self : BaseAgent) (task : string)
    (context : option (PyDict.t pyval)) : M B string :=
  do _ <- log INFO ("Agent " +:+ name (config self) +:+ " starting task") ;
  let prompt := _prepare_prompt task context in
  try_except
    (do response <- generate (run_request self prompt) ;
     do _ <- history_append self (user_turn (PStr task)) ;
     do _ <- history_append self (assistant_turn (PStr response)) ;
     do _ <- log INFO ("Agent " +:+ name (config self) +:+ " completed task") ;
     ret response)
    (λ e,
     do _ <- log ERROR ("Agent " +:+ name (config self) +:+ " failed: "
                   +:+ exn_str e) ;
     raise e).

(** The request [chat] sends for a history. *)
Definition chat_request (self : BaseAgent) (messages : list Turn) : ChatRequest :=
  {| c_model := model (config self);
     c_messages := messages;
     c_temperature := temperature (config self);
     c_max_tokens := max_tokens (config self) |}.

(** The reply [chat] takes out of the transport's response. *)
Definition extract_reply (response_data : PyDict.t pyval) : outcome pyval :=
  match PyDict.get "message" response_data with
  | Some message => py_get message "content" (PStr "")
  | None => Ok (PStr (py_str (PDict response_data)))
  end.

(** [BaseAgent.chat] *)
Definition chat (self : BaseAgent) (message : string) : M B pyval :=
  do _ <- history_append self (user_turn (PStr message)) ;
  try_except
    (do messages <- get_history self ;
     do response_data <- chat_completion (chat_request self messages) ;
     do response <- lift (extract_reply response_data) ;
     do _ <- history_append self (assistant_turn response) ;
     ret response)
    (λ e,
     do _ <- log ERROR ("Chat error in " +:+ name (config self) +:+ ": "
                   +:+ exn_str e) ;
     raise e).

(** [BaseAgent.reset_conversation] *)
Definition reset_conversation (self : BaseAgent) : M B unit :=
  do _ <- set_history self [] ;
  log INFO ("Conversation history reset for " +:+ name (config self)).

(** [BaseAgent.get_conversation_history]: a copy of the list. *)
Definition get_conversation_history (self : BaseAgent) : M B (list Turn) :=
  get_history self.
End BaseAgent.

(** ** [CoordinatorAgent] and the specialised agents *)

(** [CoordinatorAgent.DEFAULT_SYSTEM_PROMPT] *)
Definition Coordinator_DEFAULT_SYSTEM_PROMPT : string :=
"Eres un agente coordinador experto en gestión de tareas complejas y delegación.

Tus responsabilidades:
- Analizar tareas complejas y dividirlas en subtareas
- Determinar qué agente especializado es mejor para cada subtarea
- Coordinar múltiples agentes para lograr objetivos
- Sintetizar resultados de diferentes agentes
- Asegurar coherencia y calidad en el resultado final

Cuando coordines:
1. Desglose la tarea principal en pasos manejables
2. Identifica las habilidades necesarias para cada paso
3. Asigna tareas a los agentes apropiados
4. Integra los resultados de forma coherente
5. Verifica que se cumplan todos los objetivos

Agentes disponibles:
- Researcher: Investigación y análisis profundo
- Coder: Programación y desarrollo de software
- ...otros pueden ser añadidos

Sé estratégico, eficiente y orientado a resultados.".

(** [ResearcherAgent.DEFAULT_SYSTEM_PROMPT] *)
Definition Researcher_DEFAULT_SYSTEM_PROMPT : string :=
"Eres un agente de investigación experto con capacidades avanzadas de análisis y razonamiento.

Tus responsabilidades:
- Analizar información compleja y extraer insights clave
- Realizar investigación exhaustiva sobre temas dados
- Proporcionar razonamiento paso a paso (chain-of-thought)
- Sintetizar información de múltiples fuentes
- Identificar patrones, tendencias y relaciones

Cuando investigues:
1. Descompón el problema en partes manejables
2. Analiza cada aspecto sistemáticamente
3. Proporciona evidencia para tus conclusiones
4. Presenta resultados de forma clara y estructurada

Sé riguroso, objetivo y exhaustivo en tus análisis.".

(** [CoderAgent.DEFAULT_SYSTEM_PROMPT] *)
Definition Coder_DEFAULT_SYSTEM_PROMPT : string :=
"Eres un agente de programación experto con conocimiento profundo en múltiples lenguajes y tecnologías.

Tus responsabilidades:
- Generar código limpio, eficiente y bien documentado
- Revisar código y sugerir mejoras
- Explicar conceptos de programación
- Debuggear y resolver problemas
- Seguir best practices y patrones de diseño

Cuando escribas código:
1. Usa nombres descriptivos para variables y funciones
2. Incluye comentarios explicativos cuando sea necesario
3. Sigue las convenciones del lenguaje
4. Considera edge cases y manejo de errores
5. Prioriza legibilidad y mantenibilidad

Lenguajes en los que eres experto: Python, JavaScript, TypeScript, Go, Rust, Java, C++, y más.".

Section Coordinator.
Context {B : Type} `{!Client B} `{!PyRuntime}.

(** [custom_system_prompt or DEFAULT_SYSTEM_PROMPT]: [None] and the empty
    string are both falsy. *)
Definition prompt_or (custom : option string) (dflt : string) : string :=
  match custom with
  | Some (String _ _ as s) => s
  | _ => dflt
  end.

(** [self.available_agents] of the coordinator behind a handle. *)
Definition available_agents_of (w : World B) (self : BaseAgent)
    : PyDict.t BaseAgent :=
  default [] (registries w !! agent_id self).

Definition get_available_agents (self : BaseAgent) : M B (PyDict.t BaseAgent) :=
  λ w, (Ok (available_agents_of w self), w).

Definition set_available_agents (self : BaseAgent) (d : PyDict.t BaseAgent)
    : M B unit := λ w,
  (Ok tt,
   {| histories := histories w;
      registries := <[agent_id self := d]> (registries w);
      next_id := next_id w; backend := backend w; events := events w;
      logs := logs w |}).

(** [CoordinatorAgent.__init__] *)
Definition CoordinatorAgent_init (model : string) (temperature : float)
    (custom_system_prompt : option string) : M B BaseAgent :=
  let config :=
    {| name := "Coordinator";
       model := model;
       system_prompt :=
         prompt_or custom_system_prompt Coordinator_DEFAULT_SYSTEM_PROMPT;
       temperature := temperature;
       max_tokens := Some 3072%Z;
       description := "Agente coordinador para orquestación multi-agente" |} in
  do self <- BaseAgent_init config ;
  do _ <- set_available_agents self [] ;
  do _ <- log INFO ("CoordinatorAgent initialized with model " +:+ model) ;
  ret self.

(** [ResearcherAgent.__init__] *)
Definition ResearcherAgent_init (model : string) (temperature : float)
    (custom_system_prompt : option string) : M B BaseAgent :=
  let config :=
    {| name := "Researcher";
       model := model;
       system_prompt :=
         prompt_or custom_system_prompt Researcher_DEFAULT_SYSTEM_PROMPT;
       temperature := temperature;
       max_tokens := Some 4096%Z;
       description := "Agente de investigación y análisis profundo" |} in
  do self <- BaseAgent_init config ;
  do _ <- log INFO ("ResearcherAgent initialized with model " +:+ model) ;
  ret self.

(** [CoderAgent.__init__] *)
Definition CoderAgent_init (model : string) (temperature : float)
    (custom_system_prompt : option string) : M B BaseAgent :=
  let config :=
    {| name := "Coder";
       model := model;
       system_prompt :=
         prompt_or custom_system_prompt Coder_DEFAULT_SYSTEM_PROMPT;
       temperature := temperature;
       max_tokens := Some 4096%Z;
       description := "Agente de programación y desarrollo de software" |} in
  do self <- BaseAgent_init config ;
  do _ <- log INFO ("CoderAgent initialized with model " +:+ model) ;
  ret self.

(** [CoordinatorAgent.register_agent] *)
Definition register_agent (self agent : BaseAgent) : M B unit :=
  do available <- get_available_agents self ;
  do _ <- set_available_agents self
            (PyDict.set (name (config agent)) agent available) ;
  log INFO ("Agent " +:+ name (config agent) +:+ " registered with coordinator").

(** [CoordinatorAgent.list_available_agents] *)
Definition list_available_agents (self : BaseAgent) : M B (list string) :=
  do available <- get_available_agents self ;
  ret (PyDict.keys available).

(** The lines [_format_results] emits for one agent's results:
    [enumerate(agent_results, 1)]. *)
Definition format_agent_results (agent_results : list string) : list string :=
  imap (λ i result,
          nl +:+ "Subtarea " +:+ pretty (S i) +:+ ":" +:+ nl +:+ result +:+ nl)
       agent_results.

(** [CoordinatorAgent._format_results] *)
Definition _format_results (results : PyDict.t (list string)) : string :=
  String.concat nl
    (flat_map (λ '(agent, agent_results),
                 (nl +:+ "=== " +:+ py_upper agent +:+ " ===")
                   :: format_agent_results agent_results)
              results).

(** The inner loop of [delegate_and_synthesize]: the subtasks of one
    agent, in order, each result appended to [agent_results]. *)
Fixpoint run_subtasks (agent : BaseAgent) (agent_name : string)
    (subtasks : list string) (agent_results : list string)
    : M B (list string) :=
  match subtasks with
  | [] => ret agent_results
  | subtask :: rest =>
      do _ <- log INFO ("Delegating to " +:+ agent_name +:+ ": "
                        +:+ str_take 50 subtask +:+ "...") ;
      do result <- run agent subtask None ;
      run_subtasks agent agent_name rest (agent_results ++ [result])
  end.

(** The outer loop of [delegate_and_synthesize] over [agent_tasks.items()]. *)
Fixpoint delegate (self : BaseAgent) (items : list (string * list string))
    (results : PyDict.t (list string)) : M B (PyDict.t (list string)) :=
  match items with
  | [] => ret results
  | (agent_name, subtasks) :: rest =>
      do available <- get_available_agents self ;
      match PyDict.get agent_name available with
      | None =>
          do _ <- log WARNING ("Agent " +:+ agent_name
                               +:+ " not available, skipping") ;
          delegate self rest results
      | Some agent =>
          do agent_results <- run_subtasks agent agent_name subtasks [] ;
          delegate self rest (PyDict.set agent_name agent_results results)
      end
  end.

(** The task text of the final synthesis call. *)
Definition synthesis_task (task : string) (results : PyDict.t (list string))
    : string :=
  "Sintetiza los siguientes resultados de diferentes agentes:" +:+ nl +:+ nl
  +:+ "Tarea Original: " +:+ task +:+ nl +:+ nl
  +:+ "Resultados por agente:" +:+ nl
  +:+ _format_results results +:+ nl +:+ nl
  +:+ "Genera un resultado final coherente y completo que integre toda la información.".

(** [CoordinatorAgent.delegate_and_synthesize] *)
Definition delegate_and_synthesize (self : BaseAgent) (task : string)
    (agent_tasks : PyDict.t (list string)) : M B string :=
  do results <- delegate self agent_tasks [] ;
  run self (synthesis_task task results) None.
End Coordinator.

(** ** Vocabulary of the statements *)

Section Vocabulary.
Context {B : Type} `{!Client B} `{!PyRuntime}.
Implicit Types (w : World B) (self agent : BaseAgent) (task : string).

(** The world after [run]: the transport moved to [b'] and answered [res]. *)
Definition after_run self task (req : GenRequest) (res : outcome string)
    (b' : B) w : World B :=
  {| histories :=
       match res with
       | Ok response =>
           <[agent_id self :=
               history_of w self
                 ++ [user_turn (PStr task); assistant_turn (PStr response)]]>
             (histories w)
       | Raise _ => histories w
       end;
     registries := registries w;
     next_id := next_id w;
     backend := b';
     events := events w ++ [EvGenerate req res];
     logs :=
       logs w
         ++ [(INFO, "Agent " +:+ name (config self) +:+ " starting task");
             match res with
             | Ok _ =>
                 (INFO, "Agent " +:+ name (config self) +:+ " completed task")
             | Raise e =>
                 (ERROR, "Agent " +:+ name (config self) +:+ " failed: "
                         +:+ exn_str e)
             end] |}.

(** What [chat] makes of the transport's answer. *)
Definition chat_reply (res : outcome (PyDict.t pyval)) : outcome pyval :=
  match res with
  | Ok response_data => extract_reply response_data
  | Raise e => Raise e
  end.

(** The world after [chat]. *)
Definition after_chat self (message : string) (req : ChatRequest)
    (res : outcome (PyDict.t pyval)) (b' : B) w : World B :=
  {| histories :=
       <[agent_id self :=
           (history_of w self ++ [user_turn (PStr message)])
             ++ match chat_reply res with
                | Ok response => [assistant_turn response]
                | Raise _ => []
                end]>
         (histories w);
     registries := registries w;
     next_id := next_id w;
     backend := b';
     events := events w ++ [EvChat req res];
     logs :=
       logs w
         ++ match chat_reply res with
            | Ok _ => []
            | Raise e =>
                [(ERROR, "Chat error in " +:+ name (config self) +:+ ": "
                         +:+ exn_str e)]
            end |}.

(** Successive [chat] calls on one agent, stopping at the first that
    raises; the replies of the calls, in order. *)
Fixpoint chat_all (self : BaseAgent) (messages : list string) : M B (list pyval) :=
  match messages with
  | [] => ret []
  | m :: rest =>
      do r <- chat self m ;
      do rs <- chat_all self rest ;
      ret (r :: rs)
  end.

(** The turns a run of successful [chat] calls leaves behind. *)
Definition dialogue (messages : list string) (replies : list pyval)
    : list Turn :=
  mjoin (zip_with (λ m r, [user_turn (PStr m); assistant_turn r])
           messages replies).

(** The requests of the [generate] calls in a trace. *)
Definition generate_calls (evs : list Event) : list GenRequest :=
  omap (λ ev, match ev with
              | EvGenerate req _ => Some req
              | EvChat _ _ => None
              end) evs.

(** The [generate] requests a delegation map stands for: for each entry
    with a registered name, in order, one request per subtask, in order,
    with the configuration of that agent. *)
Definition subtask_calls (available : PyDict.t BaseAgent)
    (agent_tasks : PyDict.t (list string)) : list GenRequest :=
  flat_map (λ '(agent_name, subtasks),
              match PyDict.get agent_name available with
              | Some agent => map (run_request agent) subtasks
              | None => []
              end)
           agent_tasks.

(** The trace of a computation that stops at the first call that raises:
    after a normal return every call has succeeded; after an exception the
    last call is a [generate] that raised it and all calls before it
    succeeded. *)
Definition trace_shape {A} (r : outcome A) (evs : list Event) : Prop :=
  match r with
  | Ok _ => Forall (λ ev, event_ok ev = true) evs
  | Raise e =>
      ∃ pre req,
        evs = pre ++ [EvGenerate req (Raise e)] ∧
        Forall (λ ev, event_ok ev = true) pre
  end.

(** Two worlds that differ at most in what was logged. *)
Definition same_but_logs (w1 w2 : World B) : Prop :=
  histories w1 = histories w2 ∧ registries w1 = registries w2 ∧
  next_id w1 = next_id w2 ∧ backend w1 = backend w2 ∧
  events w1 = events w2.
End Vocabulary.

(** ** Concrete transports and worlds for the examples *)

(** The world of a fresh process: no object allocated, nothing called. *)
Definition init_world {B : Type} (b : B) : World B :=
  {| histories := ∅; registries := ∅; next_id := 0; backend := b;
     events := []; logs := [] |}.

(** A transport that answers from a script, one entry per call, and cannot
    connect once the script is used up. *)
Record Script : Type := {
  gen_replies : list (outcome string);
  chat_replies : list (outcome (PyDict.t pyval));
}.

Definition ConnectError : exn :=
  Exception "ConnectError" "All connection attempts failed".

#[export] Instance scripted_client : Client Script := {|
  client_generate s _ :=
    match gen_replies s with
    | r :: rest => (r, {| gen_replies := rest; chat_replies := chat_replies s |})
    | [] => (Raise ConnectError, s)
    end;
  client_chat s _ :=
    match chat_replies s with
    | r :: rest => (r, {| gen_replies := gen_replies s; chat_replies := rest |})
    | [] => (Raise ConnectError, s)
    end;
|}.

(** [repr] on the values of the examples: [None], booleans, integers, strings
    without quotes or escapes, and lists and dictionaries of those. *)
Fixpoint simple_repr (v : pyval) : string :=
  match v with
  | PNone => "None"
  | PBool b => if b then "True" else "False"
  | PInt z => pretty z
  | PFloat _ => "nan"
  | PStr s => "'" +:+ s +:+ "'"
  | PList l => "[" +:+ String.concat ", " (map simple_repr l) +:+ "]"
  | PDict d =>
      "{" +:+ String.concat ", "
                (map (λ kv, "'" +:+ fst kv +:+ "': " +:+ simple_repr (snd kv)) d)
      +:+ "}"
  end.

#[export] Instance simple_runtime : PyRuntime :=
  {| py_repr := simple_repr; py_upper := upper |}.

Definition example_config (agent_name : string) : AgentConfig :=
  {| name := agent_name; model := "llama3.2"; system_prompt := "Be brief.";
     temperature := 0.5; max_tokens := Some 2048%Z; description := "" |}.

Definition example_agent (id : nat) (agent_name : string) : BaseAgent :=
  {| agent_id := id; config := example_config agent_name |}.

(** The set-up of the multi-agent example: a coordinator, a researcher and
    a coder with their default settings, both registered. *)
Definition team_setup : M Script (BaseAgent * BaseAgent * BaseAgent) :=
  do coordinator <- CoordinatorAgent_init "llama3.2" 0.5 None ;
  do researcher <- ResearcherAgent_init "deepseek-r1:8b" 0.7 None ;
  do coder <- CoderAgent_init "qwen2.5:7b" 0.3 None ;
  do _ <- register_agent coordinator researcher ;
  do _ <- register_agent coordinator coder ;
  ret (coordinator, researcher, coder).

Definition team_world (s : Script) : World Script :=
  (team_setup (init_world s)).2.

Definition team_member (pick : BaseAgent * BaseAgent * BaseAgent → BaseAgent)
    : BaseAgent :=
  match (team_setup (init_world {| gen_replies := []; chat_replies := [] |})).1 with
  | Ok members => pick members
  | Raise _ => example_agent 0 "nobody"
  end.

Definition the_coordinator : BaseAgent := team_member (λ m, m.1.1).
Definition the_researcher : BaseAgent := team_member (λ m, m.1.2).
Definition the_coder : BaseAgent := team_member (λ m, m.2).

(** ** Capabilities, planning and the task helpers of the specialised agents *)

(** [ResearcherAgent.get_capabilities] *)
Definition ResearcherAgent_get_capabilities : list string :=
  ["Investigación profunda";
   "Análisis de documentos";
   "Razonamiento chain-of-thought";
   "Comparación y contraste";
   "Síntesis de información";
   "Identificación de patrones"].

(** [CoderAgent.get_capabilities] *)
Definition CoderAgent_get_capabilities : list string :=
  ["Generación de código";
   "Revisión de código";
   "Explicación de código";
   "Debugging";
   "Refactorización";
   "Generación de tests";
   "Múltiples lenguajes de programación"].

(** [CoordinatorAgent.get_capabilities] *)
Definition CoordinatorAgent_get_capabilities : list string :=
  ["Planificación de tareas complejas";
   "Delegación a agentes especializados";
   "Síntesis de resultados";
   "Coordinación multi-agente";
   "Optimización de flujos de trabajo"].

(** The abstract method [BaseAgent.get_capabilities]: which list an agent
    object answers with is decided by its class. *)
Class Capabilities : Type := {
  get_capabilities : BaseAgent → list string;
}.

Section Planning.
Context {B : Type} `{!Client B} `{!PyRuntime} `{!Capabilities}.

(** [CoordinatorAgent._format_capabilities] *)
Definition _format_capabilities (capabilities : PyDict.t (list string)) : string :=
  String.concat nl
    (map (λ '(agent, caps), "- " +:+ agent +:+ ": " +:+ String.concat ", " caps)
       capabilities).

(** The dictionary [plan_task] fills from [self.available_agents.items()]. *)
Definition collect_capabilities (available : PyDict.t BaseAgent)
    : PyDict.t (list string) :=
  foldl (λ capabilities '(agent_name, agent),
           PyDict.set agent_name (get_capabilities agent) capabilities)
        [] available.

(** The task text of the planning call. *)
Definition planning_task (task : string) (capabilities : PyDict.t (list string))
    : string :=
  "Analiza la siguiente tarea compleja y genera un plan de ejecución:" +:+ nl
  +:+ nl
  +:+ "Tarea: " +:+ task +:+ nl
  +:+ nl
  +:+ "Agentes disponibles y sus capacidades:" +:+ nl
  +:+ _format_capabilities capabilities +:+ nl
  +:+ nl
  +:+ "Genera un plan estructurado que incluya:" +:+ nl
  +:+ "1. Desglose de la tarea en subtareas" +:+ nl
  +:+ "2. Agente recomendado para cada subtarea" +:+ nl
  +:+ "3. Orden de ejecución" +:+ nl
  +:+ "4. Cómo integrar los resultados" +:+ nl
  +:+ nl
  +:+ "Formato de respuesta:" +:+ nl
  +:+ "SUBTAREA 1: [descripción]" +:+ nl
  +:+ "AGENTE: [nombre del agente]" +:+ nl
  +:+ "RAZON: [por qué este agente]" +:+ nl
  +:+ nl
  +:+ "SUBTAREA 2: ..." +:+ nl.

(** [CoordinatorAgent.plan_task] *)
Definition plan_task (self : BaseAgent) (task : string) : M B (PyDict.t pyval) :=
  do available <- get_available_agents self ;
  let capabilities := collect_capabilities available in
  do result <- run self (planning_task task capabilities) None ;
  ret [("plan", PStr result); ("task", PStr task)].
End Planning.

Section Helpers.
Context {B : Type} `{!Client B} `{!PyRuntime}.





(** ["\n".join([f"- {x}" for x in items])] *)
Definition bullet_list (items : list string) : string :=
  String.concat nl (map (λ x, "- " +:+ x) items).

(** The task text of [ResearcherAgent.analyze_document]; [if questions:]
    holds for a list with at least one element. *)
Definition analyze_document_task (document : string)
    (questions : option (list string)) : string :=
  match questions with
  | Some ((_ :: _) as questions) =>
      let questions_str := bullet_list questions in
      "Analiza el siguiente documento y responde las preguntas:" +:+ nl
      +:+ nl
      +:+ "Documento:" +:+ nl
      +:+ document +:+ nl
      +:+ nl
      +:+ "Preguntas:" +:+ nl
      +:+ questions_str +:+ nl
      +:+ nl
      +:+ "Proporciona análisis detallado para cada pregunta."
  | _ =>
      "Analiza el siguiente documento:" +:+ nl
      +:+ nl
      +:+ document +:+ nl
      +:+ nl
      +:+ "Proporciona:" +:+ nl
      +:+ "1. Resumen del contenido" +:+ nl
      +:+ "2. Ideas principales" +:+ nl
      +:+ "3. Puntos clave para recordar" +:+ nl
      +:+ "4. Implicaciones o aplicaciones"
  end.

(** [ResearcherAgent.analyze_document] *)
Definition analyze_document (self : BaseAgent) (document : string)
    (questions : option (list string)) : M B string :=
  run self (analyze_document_task document questions) None.

(** The task text of [ResearcherAgent.compare_and_contrast]. *)
Definition compare_and_contrast_task (item1 item2 : string)
    (criteria : option (list string)) : string :=
  match criteria with
  | Some ((_ :: _) as criteria) =>
      let criteria_str := bullet_list criteria in
      "Compara y contrasta:" +:+ nl
      +:+ nl
      +:+ "Elemento 1: " +:+ item1 +:+ nl
      +:+ "Elemento 2: " +:+ item2 +:+ nl
      +:+ nl
      +:+ "Criterios de comparación:" +:+ nl
      +:+ criteria_str +:+ nl
      +:+ nl
      +:+ "Analiza las similitudes, diferencias y proporciona conclusiones."
  | _ =>
      "Compara y contrasta:" +:+ nl
      +:+ nl
      +:+ "Elemento 1: " +:+ item1 +:+ nl
      +:+ "Elemento 2: " +:+ item2 +:+ nl
      +:+ nl
      +:+ "Analiza las similitudes, diferencias, ventajas y desventajas de cada uno."
  end.

(** [ResearcherAgent.compare_and_contrast] *)
Definition compare_and_contrast (self : BaseAgent) (item1 item2 : string)
    (criteria : option (list string)) : M B string :=
  run self (compare_and_contrast_task item1 item2 criteria) None.

(** The task text of [CoderAgent.generate_code]. *)
Definition generate_code_task (description language : string)
    (requirements : option (list string)) : string :=
  let req_str :=
    match requirements with
    | Some ((_ :: _) as requirements) =>
        nl +:+ nl +:+ "Requisitos adicionales:" +:+ nl +:+ bullet_list requirements
    | _ => ""
    end in
  "Genera código en " +:+ language +:+ " para:" +:+ nl
  +:+ nl
  +:+ description +:+ req_str +:+ nl
  +:+ nl
  +:+ "Proporciona:" +:+ nl
  +:+ "1. El código completo" +:+ nl
  +:+ "2. Explicación de cómo funciona" +:+ nl
  +:+ "3. Ejemplos de uso si es relevante".

(** [CoderAgent.generate_code] *)
Definition generate_code (self : BaseAgent) (description language : string)
    (requirements : option (list string)) : M B string :=
  run self (generate_code_task description language requirements) None.

(** The task text of [CoderAgent.review_code]. *)
Definition review_code_task (code language : string) : string :=
  "Revisa el siguiente código en " +:+ language +:+ ":" +:+ nl
  +:+ nl
  +:+ "```" +:+ language +:+ nl
  +:+ code +:+ nl
  +:+ "```" +:+ nl
  +:+ nl
  +:+ "Proporciona:" +:+ nl
  +:+ "1. Análisis de calidad general" +:+ nl
  +:+ "2. Problemas o bugs potenciales" +:+ nl
  +:+ "3. Sugerencias de mejora" +:+ nl
  +:+ "4. Consideraciones de rendimiento" +:+ nl
  +:+ "5. Código mejorado si es necesario".

(** [CoderAgent.review_code] *)
Definition review_code (self : BaseAgent) (code language : string) : M B string :=
  run self (review_code_task code language) None.

(** The task text of [CoderAgent.explain_code]. *)
Definition explain_code_task (code language : string) : string :=
  "Explica qué hace este código:" +:+ nl
  +:+ nl
  +:+ "```" +:+ (if decide (language ≠ "auto") then language else "") +:+ nl
  +:+ code +:+ nl
  +:+ "```" +:+ nl
  +:+ nl
  +:+ "Proporciona:" +:+ nl
  +:+ "1. Resumen de alto nivel" +:+ nl
  +:+ "2. Explicación línea por línea (para código complejo)" +:+ nl
  +:+ "3. Casos de uso" +:+ nl
  +:+ "4. Posibles edge cases".

(** [CoderAgent.explain_code] *)
Definition explain_code (self : BaseAgent) (code language : string) : M B string :=
  run self (explain_code_task code language) None.

(** The task text of [CoderAgent.debug_code]. *)
Definition debug_code_task (code error language : string) : string :=
  "Debug el siguiente código en " +:+ language +:+ ":" +:+ nl
  +:+ nl
  +:+ "Código:" +:+ nl
  +:+ "```" +:+ language +:+ nl
  +:+ code +:+ nl
  +:+ "```" +:+ nl
  +:+ nl
  +:+ "Error/Problema:" +:+ nl
  +:+ error +:+ nl
  +:+ nl
  +:+ "Proporciona:" +:+ nl
  +:+ "1. Causa del error" +:+ nl
  +:+ "2. Solución explicada" +:+ nl
  +:+ "3. Código corregido" +:+ nl
  +:+ "4. Prevención de errores similares".

(** [CoderAgent.debug_code] *)
Definition debug_code (self : BaseAgent) (code error language : string)
    : M B string :=
  run self (debug_code_task code error language) None.

(** The task text of [CoderAgent.refactor_code]. *)
Definition refactor_code_task (code language : string)
    (goals : option (list string)) : string :=
  let goals_str :=
    match goals with
    | Some ((_ :: _) as goals) =>
        nl +:+ nl +:+ "Objetivos:" +:+ nl +:+ bullet_list goals
    | _ =>
        nl +:+ nl
        +:+ "Objetivos: Mejorar legibilidad, eficiencia y mantenibilidad"
    end in
  "Refactoriza el siguiente código en " +:+ language +:+ ":" +:+ nl
  +:+ nl
  +:+ "```" +:+ language +:+ nl
  +:+ code +:+ nl
  +:+ "```" +:+ goals_str +:+ nl
  +:+ nl
  +:+ "Proporciona:" +:+ nl
  +:+ "1. Código refactorizado" +:+ nl
  +:+ "2. Explicación de cambios realizados" +:+ nl
  +:+ "3. Beneficios de la refactorización".

(** [CoderAgent.refactor_code] *)
Definition refactor_code (self : BaseAgent) (code language : string)
    (goals : option (list string)) : M B string :=
  run self (refactor_code_task code language goals) None.

(** The task text of [CoderAgent.write_tests]; [if framework] holds for a
    string with at least one character. *)
Definition write_tests_task (code language : string)
    (framework : option string) : string :=
  let framework_str :=
    match framework with
    | Some (String _ _ as framework) => " usando " +:+ framework
    | _ => ""
    end in
  "Genera tests" +:+ framework_str +:+ " para el siguiente código en " +:+ language +:+ ":" +:+ nl
  +:+ nl
  +:+ "```" +:+ language +:+ nl
  +:+ code +:+ nl
  +:+ "```" +:+ nl
  +:+ nl
  +:+ "Proporciona:" +:+ nl
  +:+ "1. Tests unitarios completos" +:+ nl
  +:+ "2. Test cases que cubran diferentes escenarios" +:+ nl
  +:+ "3. Edge cases" +:+ nl
  +:+ "4. Explicación de qué testea cada caso".

(** [CoderAgent.write_tests] *)
Definition write_tests (self : BaseAgent) (code language : string)
    (framework : option string) : M B string :=
  run self (write_tests_task code language framework) None.
End Helpers.

(** ** Vocabulary of the further statements *)

Section MoreVocabulary.
Context {B : Type} `{!Client B} `{!PyRuntime}.

(** [register_agent] for each agent of a list, in order. *)
Fixpoint register_all (self : BaseAgent) (agents : list BaseAgent) : M B unit :=
  match agents with
  | [] => ret tt
  | agent :: rest =>
      do _ <- register_agent self agent ;
      register_all self rest
  end.

(** The agent of a list that was configured with a name, the last one if
    there are several. *)
Fixpoint last_named (agent_name : string) (agents : list BaseAgent)
    : option BaseAgent :=
  match agents with
  | [] => None
  | agent :: rest =>
      match last_named agent_name rest with
      | Some later => Some later
      | None =>
          if decide (name (config agent) = agent_name) then Some agent else None
      end
  end.

(** The texts the transport returned to the [generate] calls of a trace. *)
Definition responses (evs : list Event) : list string :=
  omap (λ ev, match ev with
              | EvGenerate _ (Ok response) => Some response
              | _ => None
              end) evs.

(** Whether a name of a delegation map is registered. *)
Definition registered (available : PyDict.t BaseAgent) (agent_name : string)
    : Prop :=
  PyDict.contains agent_name available = true.

#[export] Instance registered_dec available agent_name :
  Decision (registered available agent_name).
Proof. unfold registered. apply _. Defined.
End MoreVocabulary.

(** ** Strings, as the client and the model manager use them *)

(** [s.isascii()] *)
Definition is_ascii (s : string) : bool :=
  forallb (λ c, bool_decide (nat_of_ascii c < 128)) (String.list_ascii_of_string s).

(** [str.lower] as it acts on the letters A to Z.  On an ASCII string this
    is all of [str.lower]; statements that read a result of [lower] off a
    table or a message are made for ASCII strings. *)
Definition lower_ascii (c : ascii) : ascii :=
  let n := nat_of_ascii c in
  if decide (65 ≤ n ∧ n ≤ 90) then ascii_of_nat (n + 32) else c.

Fixpoint lower (s : string) : string :=
  match s with
  | EmptyString => EmptyString
  | String c s' => String (lower_ascii c) (lower s')
  end.

(** [needle in haystack] on strings. *)
Fixpoint is_substring (needle haystack : string) : bool :=
  String.prefix needle haystack
  || match haystack with
     | EmptyString => false
     | String _ rest => is_substring needle rest
     end.

(** [s.rstrip(c)] for a single character [c]. *)
Fixpoint rstrip (c : ascii) (s : string) : string :=
  match s with
  | EmptyString => EmptyString
  | String a s' =>
      match rstrip c s' with
      | EmptyString => if decide (a = c) then EmptyString else String a EmptyString
      | stripped => String a stripped
      end
  end.

(** [s.split(c)[0]]: the text before the first [c], all of [s] without one. *)
Fixpoint split_first (c : ascii) (s : string) : string :=
  match s with
  | EmptyString => EmptyString
  | String a s' => if decide (a = c) then EmptyString else String a (split_first c s')
  end.

(** Whether a character occurs in a string. *)
Fixpoint occurs (c : ascii) (s : string) : bool :=
  match s with
  | EmptyString => false
  | String a s' => bool_decide (a = c) || occurs c s'
  end.

(** [len(v)] *)
Definition py_len (v : pyval) : outcome nat :=
  match v with
  | PStr s => Ok (str_len s)
  | PList l => Ok (length l)
  | PDict d => Ok (length d)
  | _ =>
      Raise (Exception "TypeError"
               ("object of type '" +:+ py_type_name v +:+ "' has no len()"))
  end.

(** ** [OllamaClient], over an HTTP connection *)

Module OllamaClient.

(** What the client reads off an [httpx] response: [response.text], what
    [response.raise_for_status()] raises if it raises, and what
    [response.json()] gives. *)
Record HttpResponse : Type := {
  text : string;
  status_error : option exn;
  json : outcome pyval;
}.

(** The [httpx.AsyncClient] the client holds: [get], [post(url, json=...)]
    and [aclose], acting on a connection state [H]. *)
Class Http (H : Type) : Type := {
  http_get : H → string → outcome HttpResponse * H;
  http_post : H → string → pyval → outcome HttpResponse * H;
  http_aclose : H → H;
}.

(** The fields of the client object; the connection is the world's
    [backend]. *)
Record t : Type := {
  host : string;
  timeout : Z;
}.

Section Client.
Context {H : Type} `{!Http H}.

Definition with_backend (w : World H) (h : H) : World H :=
  {| histories := histories w; registries := registries w;
     next_id := next_id w; backend := h; events := events w;
     logs := logs w |}.

(** [await self._client.get(url)] *)
Definition get (url : string) : M H HttpResponse := λ w,
  let '(res, h') := http_get (backend w) url in (res, with_backend w h').

(** [await self._client.post(url, json=payload)] *)
Definition post (url : string) (payload : pyval) : M H HttpResponse := λ w,
  let '(res, h') := http_post (backend w) url payload in
  (res, with_backend w h').

(** [response.raise_for_status()] *)
Definition raise_for_status (response : HttpResponse) : M H unit :=
  match status_error response with
  | Some e => raise e
  | None => ret tt
  end.

(** [OllamaClient.__init__] *)
Definition init (host : string) (timeout : Z) : M H t :=
  let self := {| host := rstrip "/" host; timeout := timeout |} in
  do _ <- log INFO ("Ollama client initialized: " +:+ OllamaClient.host self) ;
  ret self.

(** [OllamaClient.check_health] *)
Definition check_health (self : t) : M H bool :=
  try_except
    (do response <- get (host self) ;
     ret (is_substring "Ollama is running" (text response)))
    (λ e,
     do _ <- log ERROR ("Health check failed: " +:+ exn_str e) ;
     ret false).

(** [OllamaClient.list_models] *)
Definition list_models (self : t) : M H pyval :=
  try_except
    (do response <- get (host self +:+ "/api/tags") ;
     do _ <- raise_for_status response ;
     do data <- lift (json response) ;
     do models <- lift (py_get data "models" (PList [])) ;
     do n <- lift (py_len models) ;
     do _ <- log INFO ("Found " +:+ pretty n +:+ " models") ;
     ret models)
    (λ e,
     do _ <- log ERROR ("Error listing models: " +:+ exn_str e) ;
     ret (PList [])).

(** [if x:] on an optional string and on an optional integer. *)
Definition truthy_str (s : option string) : option string :=
  match s with
  | Some (String _ _ as s) => Some s
  | _ => None
  end.

Definition truthy_int (n : option Z) : option Z :=
  match n with
  | Some n => if decide (n = 0%Z) then None else Some n
  | None => None
  end.

(** The [options] dictionary of a payload.  The client builds it with the
    temperature inside the payload and assigns [num_predict] afterwards;
    the dictionary being shared, the payload that is sent holds both. *)
Definition payload_options (temperature : float) (max_tokens : option Z)
    : PyDict.t pyval :=
  let options := [("temperature", PFloat temperature)] in
  match truthy_int max_tokens with
  | Some n => PyDict.set "num_predict" (PInt n) options
  | None => options
  end.

(** The payload of [generate]. *)
Definition generate_payload (model prompt : string) (system : option string)
    (temperature : float) (max_tokens : option Z) (stream : bool)
    : PyDict.t pyval :=
  let payload :=
    [("model", PStr model);
     ("prompt", PStr prompt);
     ("stream", PBool stream);
     ("options", PDict (payload_options temperature max_tokens))] in
  match truthy_str system with
  | Some system => PyDict.set "system" (PStr system) payload
  | None => payload
  end.

(** [OllamaClient.generate]; with [stream] set the method runs off its end
    and returns [None]. *)
Definition generate (self : t) (model prompt : string) (system : option string)
    (temperature : float) (max_tokens : option Z) (stream : bool)
    : M H pyval :=
  let payload :=
    generate_payload model prompt system temperature max_tokens stream in
  try_except
    (do response <- post (host self +:+ "/api/generate") (PDict payload) ;
     do _ <- raise_for_status response ;
     if stream then ret PNone
     else
       do data <- lift (json response) ;
       lift (py_get data "response" (PStr "")))
    (λ e,
     do _ <- log ERROR ("Error generating response: " +:+ exn_str e) ;
     raise e).

(** A turn as the dictionary it is. *)
Definition turn_value (turn : Turn) : pyval :=
  PDict [("role", PStr (role turn)); ("content", content turn)].

(** The payload of [chat]. *)
Definition chat_payload (model : string) (messages : list Turn)
    (temperature : float) (max_tokens : option Z) : PyDict.t pyval :=
  [("model", PStr model);
   ("messages", PList (map turn_value messages));
   ("stream", PBool false);
   ("options", PDict (payload_options temperature max_tokens))].

(** [OllamaClient.chat] *)
Definition chat (self : t) (model : string) (messages : list Turn)
    (temperature : float) (max_tokens : option Z) : M H pyval :=
  let payload := chat_payload model messages temperature max_tokens in
  try_except
    (do response <- post (host self +:+ "/api/chat") (PDict payload) ;
     do _ <- raise_for_status response ;
     lift (json response))
    (λ e,
     do _ <- log ERROR ("Error in chat completion: " +:+ exn_str e) ;
     raise e).

(** [OllamaClient.get_model_info] *)
Definition get_model_info (self : t) (model : string) : M H pyval :=
  try_except
    (do response <- post (host self +:+ "/api/show")
                      (PDict [("name", PStr model)]) ;
     do _ <- raise_for_status response ;
     lift (json response))
    (λ e,
     do _ <- log ERROR ("Error getting model info: " +:+ exn_str e) ;
     ret PNone).

(** [OllamaClient.close] *)
Definition close (self : t) : M H unit :=
  do _ <- (λ w, (Ok tt, with_backend w (http_aclose (backend w)))) ;
  log INFO "Ollama client closed".
End Client.
End OllamaClient.

(** ** [ModelManager] *)

Module ModelManager.

(** [ModelTier] *)
Inductive ModelTier : Type := TIER_1 | TIER_2 | TIER_3.

#[export] Instance ModelTier_eq_dec : EqDecision ModelTier.
Proof. solve_decision. Defined.

(** [ModelInfo] *)
Record ModelInfo : Type := {
  name : string;
  size_gb : float;
  vram_usage_gb : float;
  tier : ModelTier;
  description : string;
  strengths : list string;
  use_cases : list string;
  ollama_name : string;
}.

(** [ModelManager.MODELS_CATALOG] *)
Definition MODELS_CATALOG : PyDict.t ModelInfo :=
  [("llama3.2",
    {| name := "Llama 3.2 8B";
       size_gb := 4.7;
       vram_usage_gb := 5.5;
       tier := TIER_1;
       description := "Excelente balance rendimiento/velocidad, multilingüe";
       strengths := ["Razonamiento sólido"; "Multilingüe"; "Uso general"];
       use_cases := ["Agente general"; "Chatbot"; "Análisis de texto"];
       ollama_name := "llama3.2" |});
   ("mistral",
    {| name := "Mistral 7B";
       size_gb := 4.1;
       vram_usage_gb := 4.5;
       tier := TIER_1;
       description := "Rápido y eficiente";
       strengths := ["Velocidad"; "Eficiencia"; "Seguimiento de instrucciones"];
       use_cases := ["Procesamiento rápido"; "Batch processing"; "Clasificación"];
       ollama_name := "mistral" |});
   ("deepseek-r1",
    {| name := "DeepSeek-R1 8B";
       size_gb := 4.9;
       vram_usage_gb := 5.5;
       tier := TIER_1;
       description := "Razonamiento lógico avanzado";
       strengths := ["Chain-of-thought"; "Razonamiento"; "Lógica"];
       use_cases := ["Análisis complejo"; "Resolución de problemas"; "Investigación"];
       ollama_name := "deepseek-r1:8b" |});
   ("phi4",
    {| name := "Phi-4 14B";
       size_gb := 8.0;
       vram_usage_gb := 9.0;
       tier := TIER_2;
       description := "Razonamiento lógico intensivo";
       strengths := ["Análisis legal"; "Lógica estructurada"; "Investigación"];
       use_cases := ["Análisis de documentos"; "Investigación profunda"];
       ollama_name := "phi4" |});
   ("qwen2.5",
    {| name := "Qwen 2.5 7B";
       size_gb := 4.7;
       vram_usage_gb := 5.5;
       tier := TIER_2;
       description := "Excelente multilingüe y coding";
       strengths := ["Multilingüe"; "Programación"; "Razonamiento"];
       use_cases := ["Coding assistant"; "Traducción"; "Soporte multilingüe"];
       ollama_name := "qwen2.5:7b" |});
   ("gemma2",
    {| name := "Gemma 2 9B";
       size_gb := 5.4;
       vram_usage_gb := 6.5;
       tier := TIER_2;
       description := "Rápido, by Google";
       strengths := ["Velocidad"; "Eficiencia"; "Calidad"];
       use_cases := ["Respuesta rápida"; "Clasificación"; "Análisis"];
       ollama_name := "gemma2:9b" |});
   ("phi3-mini",
    {| name := "Phi-3 Mini";
       size_gb := 2.3;
       vram_usage_gb := 2.5;
       tier := TIER_3;
       description := "Ultra rápido y ligero";
       strengths := ["Velocidad extrema"; "Bajo consumo"; "Sorprendentemente capaz"];
       use_cases := ["Pre-procesamiento"; "Clasificación simple"; "Routing"];
       ollama_name := "phi3:mini" |});
   ("tinyllama",
    {| name := "TinyLlama 1.1B";
       size_gb := 0.637;
       vram_usage_gb := 0.8;
       tier := TIER_3;
       description := "Extremadamente ligero";
       strengths := ["Mínimo consumo"; "Velocidad máxima"];
       use_cases := ["Clasificación básica"; "Routing de agentes"; "Filtrado"];
       ollama_name := "tinyllama" |})].

(** [use_case_mapping] of [get_recommended_model] *)
Definition use_case_mapping : PyDict.t string :=
  [("coding", "qwen2.5");
   ("code", "qwen2.5");
   ("programming", "qwen2.5");
   ("research", "deepseek-r1");
   ("reasoning", "deepseek-r1");
   ("analysis", "deepseek-r1");
   ("chat", "llama3.2");
   ("general", "llama3.2");
   ("conversation", "llama3.2");
   ("fast", "mistral");
   ("quick", "mistral");
   ("speed", "mistral");
   ("lightweight", "phi3-mini");
   ("minimal", "tinyllama")].

(** The methods of [OllamaClient] the manager calls, as their signatures
    give them: none of the three lets an exception out. *)
Class ModelClient (C : Type) : Type := {
  client_list_models : C → list (PyDict.t pyval) * C;
  client_pull_model : C → string → bool * C;
  client_get_model_info : C → string → option (PyDict.t pyval) * C;
}.

(** The fields of the manager object. *)
Record t : Type := {
  _loaded_models : PyDict.t ModelInfo;
  _available_models : list string;
}.

Section Manager.
Context {C : Type} `{!ModelClient C}.

Definition with_client (w : World C) (c : C) : World C :=
  {| histories := histories w; registries := registries w;
     next_id := next_id w; backend := c; events := events w;
     logs := logs w |}.

(** [await self.client.list_models()] *)
Definition list_models : M C (list (PyDict.t pyval)) := λ w,
  let '(models, c') := client_list_models (backend w) in
  (Ok models, with_client w c').

(** [await self.client.pull_model(model)] *)
Definition pull_model (model : string) : M C bool := λ w,
  let '(success, c') := client_pull_model (backend w) model in
  (Ok success, with_client w c').

(** [await self.client.get_model_info(model)] *)
Definition client_model_info (model : string) : M C (option (PyDict.t pyval)) :=
  λ w,
  let '(info, c') := client_get_model_info (backend w) model in
  (Ok info, with_client w c').

(** [ModelManager.__init__] *)
Definition init : M C t :=
  do _ <- log INFO "ModelManager initialized" ;
  ret {| _loaded_models := []; _available_models := [] |}.

(** [m.get("name", "").split(":")[0]]: only a string has [split]. *)
Definition model_name (m : PyDict.t pyval) : outcome string :=
  match default (PStr "") (PyDict.get "name" m) with
  | PStr s => Ok (split_first ":" s)
  | v => Raise (AttributeError v "split")
  end.

(** The list comprehension of [refresh_available_models]. *)
Fixpoint model_names (models : list (PyDict.t pyval)) : outcome (list string) :=
  match models with
  | [] => Ok []
  | m :: rest =>
      match model_name m with
      | Ok n =>
          match model_names rest with
          | Ok ns => Ok (n :: ns)
          | Raise e => Raise e
          end
      | Raise e => Raise e
      end
  end.

(** [ModelManager.refresh_available_models]; the second component is the
    manager after the call. *)
Definition refresh_available_models (self : t) : M C (list string * t) :=
  do models <- list_models ;
  do names <- lift (model_names models) ;
  let self :=
    {| _loaded_models := _loaded_models self; _available_models := names |} in
  do _ <- log INFO ("Available models refreshed: " +:+ pretty (length names)
                    +:+ " found") ;
  ret (names, self).

(** [ModelManager.get_model_info] *)
Definition get_model_info (model_key : string) : option ModelInfo :=
  PyDict.get model_key MODELS_CATALOG.

(** [ModelManager.list_models_by_tier] *)
Definition list_models_by_tier (t : ModelTier) : list ModelInfo :=
  filter (λ info, tier info = t) (map snd MODELS_CATALOG).

(** [ModelManager.get_recommended_model]; [if model_key:] holds for a
    string with at least one character. *)
Definition get_recommended_model (use_case : string) : M C (option ModelInfo) :=
  let use_case_lower := lower use_case in
  match PyDict.get use_case_lower use_case_mapping with
  | Some (String _ _ as model_key) => ret (PyDict.get model_key MODELS_CATALOG)
  | _ =>
      do _ <- log WARNING ("No specific model for use case '" +:+ use_case
                           +:+ "', defaulting to llama3.2") ;
      ret (PyDict.get "llama3.2" MODELS_CATALOG)
  end.

(** [ModelManager.ensure_model_available]; the second component is the
    manager after the call. *)
Definition ensure_model_available (self : t) (model_key : string)
    : M C (bool * t) :=
  match get_model_info model_key with
  | None =>
      do _ <- log ERROR ("Model " +:+ model_key +:+ " not found in catalog") ;
      ret (false, self)
  | Some model_info =>
      do refreshed <- refresh_available_models self ;
      let self := refreshed.2 in
      if existsb (is_substring (ollama_name model_info)) (_available_models self)
      then
        do _ <- log INFO ("Model " +:+ model_key +:+ " already available") ;
        ret (true, self)
      else
        do _ <- log INFO ("Model " +:+ model_key +:+ " not found, downloading...") ;
        do success <- pull_model (ollama_name model_info) ;
        if success : bool then
          do refreshed <- refresh_available_models self ;
          ret (success, refreshed.2)
        else ret (success, self)
  end.

(** [ModelManager.get_tier_1_models] *)
Definition get_tier_1_models : list ModelInfo := list_models_by_tier TIER_1.

(** [ModelManager.get_all_models] *)
Definition get_all_models : PyDict.t ModelInfo := MODELS_CATALOG.

(** [ModelManager.get_model_stats] *)
Definition get_model_stats (model_key : string)
    : M C (option (PyDict.t pyval)) :=
  match get_model_info model_key with
  | None => ret None
  | Some model_info => client_model_info (ollama_name model_info)
  end.
End Manager.
End ModelManager.

(** ** The HTTP endpoints of the server *)

Module Server.

(** What an endpoint answers: the body it returns, or the
    [HTTPException(status_code, detail)] it raises for the framework to send. *)
Inductive Reply : Type :=
| Response (body : PyDict.t pyval)
| HTTPException (status_code : Z) (detail : string).

Section Endpoints.
Context {B : Type} `{!Client B} `{!PyRuntime}.

(** [chat_with_agent]; [agents] is the module's dictionary of agents. *)
Definition chat_with_agent (agents : PyDict.t BaseAgent)
    (agent_id message : string) : M B Reply :=
  let agent_id := lower agent_id in
  match PyDict.get agent_id agents with
  | None => ret (HTTPException 404 ("Agent '" +:+ agent_id +:+ "' not found"))
  | Some agent =>
      try_except
        (do response <- chat agent message ;
         ret (Response [("response", response)]))
        (λ e,
         do _ <- log ERROR ("Error in chat endpoint: " +:+ exn_str e) ;
         ret (HTTPException 500 (exn_str e)))
  end.

(** [submit_task] *)
Definition submit_task (agents : PyDict.t BaseAgent) (task : string)
    : M B Reply :=
  match PyDict.get "coordinator" agents with
  | None => ret (HTTPException 503 "Coordinator agent not available")
  | Some coordinator =>
      try_except
        (do response <- run coordinator task None ;
         ret (Response [("response", PStr response)]))
        (λ e,
         do _ <- log ERROR ("Error in task endpoint: " +:+ exn_str e) ;
         ret (HTTPException 500 (exn_str e)))
  end.

(** The part of [startup_event] that makes the agents: the three agents
    with their default settings enter the dictionary, and the researcher
    and the coder are registered with the coordinator. *)
Definition startup_agents (agents : PyDict.t BaseAgent)
    : M B (PyDict.t BaseAgent) :=
  do researcher <- ResearcherAgent_init "deepseek-r1:8b" 0.7 None ;
  let agents := PyDict.set "researcher" researcher agents in
  do coder <- CoderAgent_init "qwen2.5:7b" 0.3 None ;
  let agents := PyDict.set "coder" coder agents in
  do coordinator <- CoordinatorAgent_init "llama3.2" 0.5 None ;
  let agents := PyDict.set "coordinator" coordinator agents in
  do _ <- register_agent coordinator researcher ;
  do _ <- register_agent coordinator coder ;
  do _ <- log INFO "Agents initialized successfully" ;
  ret agents.
End Endpoints.

Section Health.
Context {H : Type} `{!OllamaClient.Http H}.

(** [health_check]; [ollama_client] is [None] until the server has started. *)
Definition health_check (ollama_client : option OllamaClient.t)
    : M H (PyDict.t pyval) :=
  do ollama_status <-
    match ollama_client with
    | Some client => OllamaClient.check_health client
    | None => ret false
    end ;
  ret [("status", PStr "ok"); ("ollama_connected", PBool ollama_status)].
End Health.
End Server.

(** ** Concrete collaborators for the further examples *)

(** The capabilities of the three agent classes, told apart by the name
    their constructors configure. *)
#[export] Instance class_capabilities : Capabilities := {|
  get_capabilities agent :=
    if decide (name (config agent) = "Researcher")
    then ResearcherAgent_get_capabilities
    else if decide (name (config agent) = "Coder")
    then CoderAgent_get_capabilities
    else CoordinatorAgent_get_capabilities;
|}.

(** An HTTP connection that answers from a script, one entry per request,
    and cannot connect once the script is used up. *)
Record HttpScript : Type := {
  get_replies : list (outcome OllamaClient.HttpResponse);
  post_replies : list (outcome OllamaClient.HttpResponse);
}.

#[export] Instance scripted_http : OllamaClient.Http HttpScript := {|
  OllamaClient.http_get s _ :=
    match get_replies s with
    | r :: rest => (r, {| get_replies := rest; post_replies := post_replies s |})
    | [] => (Raise ConnectError, s)
    end;
  OllamaClient.http_post s _ _ :=
    match post_replies s with
    | r :: rest => (r, {| get_replies := get_replies s; post_replies := rest |})
    | [] => (Raise ConnectError, s)
    end;
  OllamaClient.http_aclose s := s;
|}.

Definition http_ok (body : pyval) : OllamaClient.HttpResponse :=
  {| OllamaClient.text := ""; OllamaClient.status_error := None;
     OllamaClient.json := Ok body |}.

(** A client for the model manager that lists a fixed set of installed
    models and records the names it was asked to pull. *)
Record PullLog : Type := {
  installed : list (PyDict.t pyval);
  pulled : list string;
}.

#[export] Instance recording_client : ModelManager.ModelClient PullLog := {|
  ModelManager.client_list_models s := (installed s, s);
  ModelManager.client_pull_model s model :=
    (false, {| installed := installed s; pulled := pulled s ++ [model] |});
  ModelManager.client_get_model_info s _ := (None, s);
|}.

Definition fresh_manager : ModelManager.t :=
  {| ModelManager._loaded_models := []; ModelManager._available_models := [] |}.

(** Two models are installed, each listed with its tag. *)
Definition two_installed : PullLog :=
  {| installed := [[("name", PStr "qwen2.5:7b")];
                   [("name", PStr "llama3.2:latest")]];
     pulled := [] |}.


(** * Properties *)

(** ** Dictionaries *)

Module PyDictFacts.
Section Facts.
Context {V : Type}.
Implicit Types (k : string) (v : V) (d : list (string * V)).

Lemma get_None_keys k d : PyDict.get k d = None ↔ k ∉ PyDict.keys d.
Proof.
  induction d as [|[k' v'] d IH]; simpl.
  - split; [intros _; apply not_elem_of_nil | done].
  - rewrite not_elem_of_cons. case_decide as Hk.
    + split; [done | by intros [? _]].
    + rewrite IH. split; [done | by intros [_ ?]].
Qed.

Lemma get_set_eq k v d : PyDict.get k (PyDict.set k v d) = Some v.
Proof.
  induction d as [|[k' v'] d IH]; simpl.
  - by rewrite decide_True.
  - case_decide; simpl; [by rewrite decide_True | by rewrite decide_False].
Qed.

Lemma get_set_ne k k' v d :
  k ≠ k' → PyDict.get k' (PyDict.set k v d) = PyDict.get k' d.
Proof.
  intros Hne. induction d as [|[k0 v0] d IH]; simpl.
  - by rewrite decide_False.
  - case_decide; simpl; subst.
    + by rewrite !decide_False.
    + by rewrite IH.
Qed.

(** Assigning to a key that is present keeps the key order. *)
Lemma keys_set_present k v d :
  k ∈ PyDict.keys d → PyDict.keys (PyDict.set k v d) = PyDict.keys d.
Proof.
  induction d as [|[k' v'] d IH]; simpl.
  - intros H. by apply elem_of_nil in H.
  - intros H. case_decide; simpl; subst; [done|].
    apply elem_of_cons in H as [?|H]; [done|]. by rewrite IH.
Qed.

(** Assigning to a new key appends it. *)
Lemma keys_set_fresh k v d :
  k ∉ PyDict.keys d → PyDict.keys (PyDict.set k v d) = PyDict.keys d ++ [k].
Proof.
  induction d as [|[k' v'] d IH]; simpl; [done|].
  rewrite not_elem_of_cons. intros [Hne H].
  rewrite decide_False by done. simpl. by rewrite IH.
Qed.

Lemma elem_of_keys_set k v d : k ∈ PyDict.keys (PyDict.set k v d).
Proof.
  destruct (decide (k ∈ PyDict.keys d)) as [Hin|Hout].
  - by rewrite keys_set_present.
  - rewrite keys_set_fresh by done. apply elem_of_app. right. by apply list_elem_of_singleton.
Qed.

Lemma wf_set k v d : PyDict.wf d → PyDict.wf (PyDict.set k v d).
Proof.
  unfold PyDict.wf. intros Hwf.
  destruct (decide (k ∈ PyDict.keys d)) as [Hin|Hout].
  - by rewrite keys_set_present.
  - rewrite keys_set_fresh by done.
    apply NoDup_app. split_and!; [done| |apply NoDup_singleton].
    intros x Hx Hx'. apply list_elem_of_singleton in Hx'. by subst.
Qed.

Lemma wf_nil : PyDict.wf (@nil (string * V)).
Proof. apply NoDup_nil_2. Qed.

(** In a well-formed dictionary a key that is present occurs once. *)
Lemma count_occ_keys k d :
  PyDict.wf d → k ∈ PyDict.keys d →
  count_occ String.string_dec (PyDict.keys d) k = 1.
Proof.
  unfold PyDict.wf. intros Hwf Hin.
  apply list_elem_of_In, (count_occ_In String.string_dec) in Hin.
  apply NoDup_ListNoDup in Hwf.
  pose proof (proj1 (List.NoDup_count_occ String.string_dec _) Hwf k).
  lia.
Qed.
End Facts.
End PyDictFacts.

(** ** The base agent *)

Section BaseAgentFacts.
Context {B : Type} `{!Client B} `{!PyRuntime}.
Implicit Types (w : World B) (self agent : BaseAgent) (task : string).

Lemma run_unfold self task context w :
  let req := run_request self (_prepare_prompt task context) in
  run self task context w =
    ((client_generate (backend w) req).1,
     after_run self task req (client_generate (backend w) req).1
      (client_generate (backend w) req).2 w).
Proof.
  intros req. unfold run, bind, try_except, generate, log, history_append,
    get_history, set_history, raise, ret, after_run, history_of.
  cbn [backend]. fold req. destruct (client_generate (backend w) req) as [[response|e] b'].
  all: simpl.
  - rewrite lookup_insert_eq. simpl. rewrite insert_insert_eq.
    by rewrite <- !(assoc_L (++)).
  - by rewrite <- !(assoc_L (++)).
Qed.

Lemma chat_unfold self message w :
  let req :=
    chat_request self (history_of w self ++ [user_turn (PStr message)]) in
  chat self message w =
    (chat_reply (client_chat (backend w) req).1,
     after_chat self message req (client_chat (backend w) req).1
       (client_chat (backend w) req).2 w).
Proof.
  intros req. unfold chat, bind, try_except, chat_completion, log, lift,
    history_append, get_history, set_history, raise, ret, after_chat,
    history_of.
  simpl. rewrite lookup_insert_eq. simpl.
  fold (history_of w self). fold req.
  destruct (client_chat (backend w) req) as [[response_data|e] b']; simpl.
  - destruct (extract_reply response_data) as [response|e]; simpl.
    + rewrite lookup_insert_eq. simpl. rewrite insert_insert_eq.
      by rewrite app_nil_r.
    + by rewrite app_nil_r.
  - by rewrite app_nil_r.
Qed.

Lemma default_lookup_insert (hs : gmap nat (list Turn)) i j h :
  default [] (<[i := h]> hs !! j) =
    if decide (j = i) then h else default [] (hs !! j).
Proof.
  case_decide as Hij.
  - by rewrite Hij, lookup_insert_eq.
  - by rewrite lookup_insert_ne.
Qed.

(** [run] touches the history of its own agent only, and only at the end. *)
Lemma history_after_run self agent task req res b' w :
  history_of (after_run self task req res b' w) agent =
    if decide (agent_id agent = agent_id self) then
      history_of w agent
        ++ match res with
           | Ok response =>
               [user_turn (PStr task); assistant_turn (PStr response)]
           | Raise _ => []
           end
    else history_of w agent.
Proof.
  unfold history_of, after_run. destruct res as [response|e]; simpl.
  - rewrite default_lookup_insert. case_decide as Hid; [|done].
    by rewrite Hid.
  - case_decide; [by rewrite app_nil_r | done].
Qed.

Lemma history_after_chat self agent message req res b' w :
  history_of (after_chat self message req res b' w) agent =
    if decide (agent_id agent = agent_id self) then
      history_of w agent ++ user_turn (PStr message)
        :: match chat_reply res with
           | Ok response => [assistant_turn response]
           | Raise _ => []
           end
    else history_of w agent.
Proof.
  unfold history_of, after_chat. simpl.
  rewrite default_lookup_insert. case_decide as Hid; [|done].
  rewrite Hid. by rewrite <- (assoc_L (++)).
Qed.

Lemma chat_all_history self messages :
  ∀ w replies w',
    chat_all self messages w = (Ok replies, w') →
    length replies = length messages ∧
    history_of w' self = history_of w self ++ dialogue messages replies.
Proof.
  induction messages as [|m rest IH]; intros w replies w'; simpl.
  - unfold ret. intros [= <- <-]. by rewrite app_nil_r.
  - unfold bind at 1. rewrite chat_unfold.
    set (req := chat_request _ _).
    destruct (client_chat (backend w) req) as [res b'] eqn:Hres. simpl.
    destruct (chat_reply res) as [r|e] eqn:Hreply; [|done].
    unfold bind at 1.
    destruct (chat_all self rest _) as [[rs|e] w1] eqn:Hrest; [|done].
    unfold ret. intros [= <- <-].
    apply IH in Hrest as [Hlen Hhist]. split; [simpl; by rewrite Hlen|].
    rewrite Hhist, history_after_chat, decide_True by done.
    rewrite Hreply. unfold dialogue. simpl.
    by rewrite <- (assoc_L (++)).
Qed.


(** C10: when the transport's [generate] raises inside [run], the exception
    reaches the caller and no history is touched: what
    [get_conversation_history] returns is what it returned before. *)
Theorem run_failure_keeps_history self task context w e b' :
  client_generate (backend w)
    (run_request self (_prepare_prompt task context)) = (Raise e, b') →
  let '(r, w') := run self task context w in
  r = Raise e ∧
  histories w' = histories w ∧
  (get_conversation_history self w').1 = (get_conversation_history self w).1.
Proof.
  intros Hgen. rewrite run_unfold. simpl. rewrite Hgen. simpl.
  split_and!; [done..|].
  unfold get_conversation_history, get_history, history_of. done.
Qed.

(** C9: [run] sends the transport one request whose prompt is the task text
    itself when there is no context (or an empty one), and otherwise a
    block with one [key: value] line per context entry, in order, followed
    by the task text. *)
Theorem run_prompt self task w :
  (∀ context,
     ∃ res,
       events (run self task context w).2 =
         events w ++ [EvGenerate (run_request self (_prepare_prompt task context)) res] ∧
       g_prompt (run_request self (_prepare_prompt task context)) =
         _prepare_prompt task context) ∧
  _prepare_prompt task None = task ∧
  _prepare_prompt task (Some []) = task ∧
  (∀ entry entries,
     ∃ block,
       _prepare_prompt task (Some (entry :: entries)) =
         "Context:" +:+ nl +:+ block +:+ nl +:+ nl +:+ "Task:" +:+ nl +:+ task ∧
       block = String.concat nl (context_lines (entry :: entries)) ∧
       length (context_lines (entry :: entries)) = S (length entries) ∧
       ∀ i k v,
         (entry :: entries) !! i = Some (k, v) →
         context_lines (entry :: entries) !! i = Some (k +:+ ": " +:+ py_str v)).
Proof.
  split_and!; [|done..|].
  - intros context. rewrite run_unfold. simpl. eauto.
  - intros entry entries. eexists. split_and!; [reflexivity|reflexivity|..].
    + unfold context_lines. by rewrite length_map.
    + intros i k v Hi. unfold context_lines.
      rewrite list_lookup_fmap, Hi. done.
Qed.

(** C5: when the transport's [chat] raises, the exception reaches the
    caller, the user turn appended at the start of the call stays in the
    history and no assistant turn follows it. *)
Theorem chat_failure_keeps_user_turn self message w e b' :
  client_chat (backend w)
    (chat_request self (history_of w self ++ [user_turn (PStr message)]))
    = (Raise e, b') →
  let '(r, w') := chat self message w in
  r = Raise e ∧
  (get_conversation_history self w').1 =
    Ok (history_of w self ++ [user_turn (PStr message)]).
Proof.
  intros Hchat. rewrite chat_unfold. simpl. rewrite Hchat. simpl.
  split; [done|].
  unfold get_conversation_history, get_history. simpl.
  by rewrite history_after_chat, decide_True.
Qed.


(** C3: every successful [chat] call appends one user turn holding its
    message and then one assistant turn holding the reply it returned; so
    after any sequence of successful calls on an agent whose history was
    empty, the history is the user and assistant turn of the first call,
    then those of the second, and so on. *)
Theorem chat_history_alternates self messages w replies w' :
  chat_all self messages w = (Ok replies, w') →
  length replies = length messages ∧
  (get_conversation_history self w').1 =
    Ok (history_of w self ++ dialogue messages replies) ∧
  ((get_conversation_history self w).1 = Ok [] →
   (get_conversation_history self w').1 = Ok (dialogue messages replies)).
Proof.
  unfold get_conversation_history, get_history. simpl.
  intros Hall. apply chat_all_history in Hall as [Hlen Hhist].
  split_and!; [done|by rewrite Hhist|].
  intros [= Hempty]. by rewrite Hhist, Hempty.
Qed.
End BaseAgentFacts.

(** ** The coordinator *)

Section CoordinatorFacts.
Context {B : Type} `{!Client B} `{!PyRuntime}.
Implicit Types (w : World B) (self agent : BaseAgent) (task : string).

Lemma register_agent_unfold self agent w :
  register_agent self agent w =
    (Ok tt,
     {| histories := histories w;
        registries :=
          <[agent_id self :=
              PyDict.set (name (config agent)) agent (available_agents_of w self)]>
            (registries w);
        next_id := next_id w; backend := backend w; events := events w;
        logs :=
          logs w ++ [(INFO, "Agent " +:+ name (config agent)
                            +:+ " registered with coordinator")] |}).
Proof. reflexivity. Qed.

Lemma available_after_register self agent w :
  available_agents_of (register_agent self agent w).2 self =
    PyDict.set (name (config agent)) agent (available_agents_of w self).
Proof.
  rewrite register_agent_unfold. unfold available_agents_of at 1. simpl.
  by rewrite lookup_insert_eq.
Qed.

(** Registration keeps the registry a dictionary. *)
Lemma register_agent_wf self agent w :
  PyDict.wf (available_agents_of w self) →
  PyDict.wf (available_agents_of (register_agent self agent w).2 self).
Proof. rewrite available_after_register. apply PyDictFacts.wf_set. Qed.

(** C7: after registering [A] and then [A'] under the same name,
    [list_available_agents] lists that name exactly once and the registry
    entry for the name is [A']. *)
Theorem register_agent_last_wins self A A' w :
  name (config A) = name (config A') →
  PyDict.wf (available_agents_of w self) →
  let '(r, w') :=
    (do _ <- register_agent self A; register_agent self A') w in
  r = Ok tt ∧
  (∃ names,
     (list_available_agents self w').1 = Ok names ∧
     count_occ String.string_dec names (name (config A)) = 1) ∧
  PyDict.get (name (config A)) (available_agents_of w' self) = Some A'.
Proof.
  intros Hname Hwf. unfold bind. rewrite (register_agent_unfold self A w).
  set (w1 := {| histories := histories w |}).
  assert (w1 = (register_agent self A w).2) as Hw1 by done.
  pose proof (available_after_register self A' w1) as Hreg.
  pose proof (register_agent_wf self A' w1) as Hwf'.
  destruct (register_agent self A' w1) as [r w'] eqn:Hr.
  rewrite register_agent_unfold in Hr. injection Hr as <- Hw'.
  simpl in Hreg, Hwf'. split; [done|]. rewrite Hreg, Hname. split.
  - exists (PyDict.keys (available_agents_of w' self)). split; [done|].
    apply PyDictFacts.count_occ_keys.
    + apply Hwf'. rewrite Hw1. by apply register_agent_wf.
    + rewrite Hreg. apply PyDictFacts.elem_of_keys_set.
  - apply PyDictFacts.get_set_eq.
Qed.

(** *** The calls a delegation issues *)

Lemma raise_is_last pre' : ∀ pre req e post req' e',
  Forall (λ ev, event_ok ev = true) pre' →
  pre ++ EvGenerate req (Raise e) :: post = pre' ++ [EvGenerate req' (Raise e')] →
  pre = pre' ∧ req = req' ∧ e = e' ∧ post = [].
Proof.
  induction pre' as [|p pre' IH]; intros pre req e post req' e' Hok Heq.
  - destruct pre as [|q pre]; simpl in Heq.
    + by injection Heq as -> -> ->.
    + injection Heq as _ Heq. by destruct pre.
  - apply Forall_cons in Hok as [Hp Hok].
    destruct pre as [|q pre]; simpl in Heq.
    + injection Heq as <- _. done.
    + injection Heq as -> Heq.
      apply IH in Heq as (-> & -> & -> & ->); done.
Qed.

Lemma no_raise_in_ok pre req e post :
  ¬ Forall (λ ev, event_ok ev = true) (pre ++ EvGenerate req (Raise e) :: post).
Proof.
  intros Hok. apply Forall_app in Hok as [_ Hok].
  apply Forall_cons in Hok as [Hev _]. done.
Qed.

(** One round of the inner loop. *)
Lemma run_subtasks_cons agent agent_name subtask rest acc w :
  let wl :=
    (log INFO ("Delegating to " +:+ agent_name +:+ ": "
               +:+ str_take 50 subtask +:+ "...") w).2 in
  let req := run_request agent subtask in
  run_subtasks agent agent_name (subtask :: rest) acc w =
    match client_generate (backend w) req with
    | (Ok response, b') =>
        run_subtasks agent agent_name rest (acc ++ [response])
          (after_run agent subtask req (Ok response) b' wl)
    | (Raise e, b') => (Raise e, after_run agent subtask req (Raise e) b' wl)
    end.
Proof.
  intros wl req. cbn [run_subtasks]. unfold bind. cbn [log].
  rewrite run_unfold. cbn [_prepare_prompt backend]. fold req.
  by destruct (client_generate (backend w) req) as [[response|e] b'].
Qed.

Lemma run_subtasks_spec agent agent_name subtasks : ∀ acc w,
  registries (run_subtasks agent agent_name subtasks acc w).2 = registries w ∧
  ∃ evs,
    events (run_subtasks agent agent_name subtasks acc w).2 = events w ++ evs ∧
    trace_shape (run_subtasks agent agent_name subtasks acc w).1 evs ∧
    ∀ results,
      (run_subtasks agent agent_name subtasks acc w).1 = Ok results →
      generate_calls evs = map (run_request agent) subtasks ∧
      length evs = length subtasks ∧
      ∃ new, results = acc ++ new ∧ length new = length subtasks.
Proof.
  induction subtasks as [|subtask rest IH]; intros acc w.
  - simpl. split; [done|]. exists []. rewrite app_nil_r.
    split_and!; [done|by apply Forall_nil|].
    intros results [= <-]. split_and!; [done..|].
    exists []. by rewrite app_nil_r.
  - rewrite run_subtasks_cons. cbv zeta.
    set (wl := (log _ _ w).2). set (req := run_request agent subtask).
    destruct (client_generate (backend w) req) as [[response|e] b'] eqn:Hgen.
    + specialize (IH (acc ++ [response])
                    (after_run agent subtask req (Ok response) b' wl)).
      destruct IH as (Hreg & evs & Hev & Hshape & Hok).
      split; [by rewrite Hreg|].
      exists (EvGenerate req (Ok response) :: evs).
      split_and!.
      * rewrite Hev. simpl. by rewrite <- (assoc_L (++)).
      * destruct (run_subtasks agent agent_name rest _ _).1; simpl in *.
        -- by apply Forall_cons.
        -- destruct Hshape as (pre & req' & -> & Hpre).
           exists (EvGenerate req (Ok response) :: pre), req'.
           split; [done|]. by apply Forall_cons.
      * intros results Hres.
        apply Hok in Hres as (Hcalls & Hlen & new & -> & Hnew).
        split_and!; [simpl; by rewrite Hcalls | simpl; by rewrite Hlen |].
        exists (response :: new). rewrite <- (assoc_L (++)).
        split; [done|]. simpl. by rewrite Hnew.
    + split; [done|].
      exists [EvGenerate req (Raise e)]. split_and!; [done| |done].
      exists [], req. split; [done|]. by apply Forall_nil.
Qed.

Lemma trace_shape_app {A} (r : outcome A) evs1 evs2 :
  Forall (λ ev, event_ok ev = true) evs1 →
  trace_shape r evs2 → trace_shape r (evs1 ++ evs2).
Proof.
  intros Hok. destruct r as [a|e]; simpl.
  - intros Hok2. by apply Forall_app.
  - intros (pre & req & -> & Hpre). exists (evs1 ++ pre), req.
    split; [by rewrite <- (assoc_L (++))|]. by apply Forall_app.
Qed.

Lemma available_agents_of_registries w w' self :
  registries w' = registries w →
  available_agents_of w' self = available_agents_of w self.
Proof. unfold available_agents_of. by intros ->. Qed.

(** One round of the outer loop, for an unregistered name... *)
Lemma delegate_cons_unknown self agent_name subtasks rest results w :
  PyDict.get agent_name (available_agents_of w self) = None →
  delegate self ((agent_name, subtasks) :: rest) results w =
    delegate self rest results
      (log WARNING ("Agent " +:+ agent_name +:+ " not available, skipping") w).2.
Proof.
  intros Hget. cbn [delegate]. unfold bind at 1, get_available_agents.
  by rewrite Hget.
Qed.

(** ... and for a registered one. *)
Lemma delegate_cons_known self agent_name agent subtasks rest results w :
  PyDict.get agent_name (available_agents_of w self) = Some agent →
  delegate self ((agent_name, subtasks) :: rest) results w =
    match run_subtasks agent agent_name subtasks [] w with
    | (Ok agent_results, w1) =>
        delegate self rest (PyDict.set agent_name agent_results results) w1
    | (Raise e, w1) => (Raise e, w1)
    end.
Proof.
  intros Hget. cbn [delegate]. unfold bind at 1, get_available_agents.
  by rewrite Hget.
Qed.

Lemma delegate_spec self items : ∀ results w,
  registries (delegate self items results w).2 = registries w ∧
  ∃ evs,
    events (delegate self items results w).2 = events w ++ evs ∧
    trace_shape (delegate self items results w).1 evs ∧
    ∀ results',
      (delegate self items results w).1 = Ok results' →
      generate_calls evs = subtask_calls (available_agents_of w self) items ∧
      length evs = length (subtask_calls (available_agents_of w self) items).
Proof.
  induction items as [|[agent_name subtasks] rest IH]; intros results w.
  - simpl. split; [done|]. exists []. rewrite app_nil_r.
    split_and!; [done|by apply Forall_nil|done].
  - cbn [subtask_calls flat_map].
    destruct (PyDict.get agent_name (available_agents_of w self))
      as [agent|] eqn:Hget.
    + rewrite (delegate_cons_known _ _ _ _ _ _ _ Hget).
      destruct (run_subtasks_spec agent agent_name subtasks [] w)
        as (Hreg1 & evs1 & Hev1 & Hshape1 & Hok1).
      destruct (run_subtasks agent agent_name subtasks [] w)
        as [[agent_results|e] w1]; simpl in *.
      * destruct (Hok1 _ eq_refl) as (Hcalls1 & Hlen1 & _).
        specialize (IH (PyDict.set agent_name agent_results results) w1).
        destruct IH as (Hreg & evs & Hev & Hshape & Hok).
        rewrite (available_agents_of_registries w w1 self Hreg1) in Hok.
        split; [by rewrite Hreg|]. exists (evs1 ++ evs). split_and!.
        -- by rewrite Hev, Hev1, <- (assoc_L (++)).
        -- by apply trace_shape_app.
        -- intros results' Hres. apply Hok in Hres as [Hcalls Hlen].
           fold (subtask_calls (available_agents_of w self) rest).
           unfold generate_calls in *. rewrite omap_app, Hcalls1, Hcalls.
           split; [done|]. by rewrite !length_app, Hlen1, Hlen, length_map.
      * split; [done|]. exists evs1. split_and!; done.
    + rewrite (delegate_cons_unknown _ _ _ _ _ _ Hget).
      set (wl := (log WARNING _ w).2).
      destruct (IH results wl) as (Hreg & evs & Hev & Hshape & Hok).
      split; [done|]. exists evs. split_and!; done.
Qed.

Lemma delegate_and_synthesize_unfold self task agent_tasks w :
  delegate_and_synthesize self task agent_tasks w =
    match delegate self agent_tasks [] w with
    | (Ok results, w1) => run self (synthesis_task task results) None w1
    | (Raise e, w1) => (Raise e, w1)
    end.
Proof. reflexivity. Qed.

(** When every name is registered there is one request per subtask. *)
Lemma subtask_calls_length available (agent_tasks : PyDict.t (list string)) :
  (∀ agent_name,
     agent_name ∈ PyDict.keys agent_tasks →
     agent_name ∈ PyDict.keys available) →
  length (subtask_calls available agent_tasks)
    = length (concat (map snd agent_tasks)).
Proof.
  induction agent_tasks as [|[agent_name subtasks] rest IH]; intros Hreg;
    [done|].
  cbn [subtask_calls flat_map map concat snd].
  fold (subtask_calls available rest).
  rewrite !length_app, IH.
  - destruct (PyDict.get agent_name available) as [agent|] eqn:Hget.
    + by rewrite length_map.
    + apply PyDictFacts.get_None_keys in Hget. destruct Hget.
      apply Hreg. simpl. apply elem_of_cons. by left.
  - intros n Hn. apply Hreg. simpl. apply elem_of_cons. by right.
Qed.

(** C2: when a [generate] call raises during the delegation loop,
    [delegate_and_synthesize] raises that same exception, and the failing
    call is the last call issued to the transport: no later subtask is run
    and the synthesis call is not made. *)
Theorem delegation_failure_aborts self task agent_tasks w pre req e post :
  events (delegate self agent_tasks [] w).2
    = events w ++ pre ++ EvGenerate req (Raise e) :: post →
  let '(r, w') := delegate_and_synthesize self task agent_tasks w in
  r = Raise e ∧
  post = [] ∧
  events w' = events w ++ pre ++ [EvGenerate req (Raise e)].
Proof.
  intros Hraised. rewrite delegate_and_synthesize_unfold.
  destruct (delegate_spec self agent_tasks [] w)
    as (_ & evs & Hev & Hshape & _).
  rewrite Hev in Hraised. apply app_inv_head in Hraised. subst evs.
  destruct (delegate self agent_tasks [] w) as [[results|e'] w1];
    simpl in *.
  - by apply no_raise_in_ok in Hshape.
  - destruct Hshape as (pre' & req' & Heq & Hpre).
    apply raise_is_last in Heq as (-> & -> & -> & ->); [|done].
    done.
Qed.

(** C8: with every name of the delegation map registered and no call to
    the transport raising, [delegate_and_synthesize] issues one [generate]
    call per subtask, entry by entry and subtask by subtask, each with the
    configuration of the agent registered under the entry's name, followed
    by one synthesis call with the coordinator's own configuration; these
    are all the calls it issues. *)
Theorem delegation_call_sequence self task agent_tasks w evs :
  (∀ agent_name,
     agent_name ∈ PyDict.keys agent_tasks →
     agent_name ∈ PyDict.keys (available_agents_of w self)) →
  events (delegate_and_synthesize self task agent_tasks w).2
    = events w ++ evs →
  Forall (λ ev, event_ok ev = true) evs →
  (∃ results,
     generate_calls evs =
       subtask_calls (available_agents_of w self) agent_tasks
         ++ [run_request self (synthesis_task task results)]) ∧
  length evs = length (concat (map snd agent_tasks)) + 1 ∧
  is_ok (delegate_and_synthesize self task agent_tasks w).1 = true.
Proof.
  intros Hreg Hevs Hok. rewrite delegate_and_synthesize_unfold in *.
  rewrite <- (subtask_calls_length _ _ Hreg).
  destruct (delegate_spec self agent_tasks [] w)
    as (_ & evs1 & Hev1 & Hshape1 & Hok1).
  destruct (delegate self agent_tasks [] w) as [[results|e] w1];
    simpl in *.
  - destruct (Hok1 _ eq_refl) as [Hcalls Hlen].
    rewrite run_unfold in *. simpl in *.
    rewrite Hev1, <- (assoc_L (++)) in Hevs.
    apply app_inv_head in Hevs. subst evs.
    apply Forall_app in Hok as [_ Hlast].
    apply Forall_cons in Hlast as [Hlast _]. simpl in Hlast.
    split_and!.
    + exists results. unfold generate_calls in *.
      by rewrite omap_app, Hcalls.
    + rewrite length_app, Hlen. simpl. done.
    + done.
  - rewrite Hev1 in Hevs. apply app_inv_head in Hevs. subst evs.
    destruct Hshape1 as (pre & req & -> & _).
    by apply (no_raise_in_ok pre req e []) in Hok.
Qed.

(** *** Unregistered names *)

Lemma same_but_logs_log lvl msg w1 w2 :
  same_but_logs w1 w2 → same_but_logs (log lvl msg w1).2 w2.
Proof. done. Qed.

Lemma same_but_logs_sym w1 w2 : same_but_logs w1 w2 → same_but_logs w2 w1.
Proof. intros (?&?&?&?&?). by split_and!. Qed.

(** Nothing the agents do depends on the log. *)
Lemma run_same_but_logs agent task context w1 w2 :
  same_but_logs w1 w2 →
  (run agent task context w1).1 = (run agent task context w2).1 ∧
  same_but_logs (run agent task context w1).2 (run agent task context w2).2.
Proof.
  intros (Hh & Hr & Hn & Hb & He). rewrite !run_unfold. simpl.
  rewrite Hb. split; [done|].
  unfold same_but_logs, after_run, history_of. simpl.
  by rewrite Hh, Hr, Hn, He.
Qed.

Lemma run_subtasks_same_but_logs agent agent_name subtasks : ∀ acc w1 w2,
  same_but_logs w1 w2 →
  (run_subtasks agent agent_name subtasks acc w1).1
    = (run_subtasks agent agent_name subtasks acc w2).1 ∧
  same_but_logs (run_subtasks agent agent_name subtasks acc w1).2
    (run_subtasks agent agent_name subtasks acc w2).2.
Proof.
  induction subtasks as [|subtask rest IH]; intros acc w1 w2 Hsame; [done|].
  rewrite !run_subtasks_cons. cbv zeta.
  pose proof Hsame as (Hh & Hr & Hn & Hb & He). rewrite Hb.
  destruct (client_generate (backend w2) _) as [[response|e] b'].
  - apply IH. unfold same_but_logs, after_run, history_of. simpl.
    by rewrite Hh, Hr, Hn, He.
  - split; [done|]. unfold same_but_logs, after_run. simpl.
    by rewrite Hh, Hr, Hn, He.
Qed.

Lemma delegate_same_but_logs self items : ∀ results w1 w2,
  same_but_logs w1 w2 →
  (delegate self items results w1).1 = (delegate self items results w2).1 ∧
  same_but_logs (delegate self items results w1).2
    (delegate self items results w2).2.
Proof.
  induction items as [|[agent_name subtasks] rest IH];
    intros results w1 w2 Hsame; [done|].
  pose proof Hsame as (_ & Hr & _).
  pose proof (available_agents_of_registries w2 w1 self Hr) as Hav.
  destruct (PyDict.get agent_name (available_agents_of w1 self))
    as [agent|] eqn:Hget.
  - rewrite (delegate_cons_known _ _ _ _ _ _ w1 Hget).
    rewrite Hav in Hget. rewrite (delegate_cons_known _ _ _ _ _ _ w2 Hget).
    destruct (run_subtasks_same_but_logs agent agent_name subtasks [] w1 w2
                Hsame) as [Hres Hsame'].
    destruct (run_subtasks agent agent_name subtasks [] w1) as [r1 w1'].
    destruct (run_subtasks agent agent_name subtasks [] w2) as [r2 w2'].
    simpl in *. subst r2. destruct r1 as [agent_results|e]; [|done].
    by apply IH.
  - rewrite (delegate_cons_unknown _ _ _ _ _ w1 Hget).
    rewrite Hav in Hget. rewrite (delegate_cons_unknown _ _ _ _ _ w2 Hget).
    by apply IH.
Qed.

(** Dropping an unregistered entry from the delegation map changes
    nothing but the log. *)
Lemma delegate_skip_unknown self agent_name subtasks post pre :
  ∀ results w1 w2,
    same_but_logs w1 w2 →
    PyDict.get agent_name (available_agents_of w1 self) = None →
    (delegate self (pre ++ (agent_name, subtasks) :: post) results w1).1
      = (delegate self (pre ++ post) results w2).1 ∧
    same_but_logs
      (delegate self (pre ++ (agent_name, subtasks) :: post) results w1).2
      (delegate self (pre ++ post) results w2).2.
Proof.
  induction pre as [|[name' subtasks'] pre IH];
    intros results w1 w2 Hsame Hnone.
  - simpl app. rewrite (delegate_cons_unknown _ _ _ _ _ _ Hnone).
    by apply delegate_same_but_logs.
  - simpl app. pose proof Hsame as (_ & Hr & _).
    pose proof (available_agents_of_registries w2 w1 self Hr) as Hav.
    destruct (PyDict.get name' (available_agents_of w1 self))
      as [agent|] eqn:Hget.
    + rewrite (delegate_cons_known _ _ _ _ _ _ w1 Hget).
      rewrite Hav in Hget. rewrite (delegate_cons_known _ _ _ _ _ _ w2 Hget).
      destruct (run_subtasks_same_but_logs agent name' subtasks' [] w1 w2
                  Hsame) as [Hres Hsame'].
      destruct (run_subtasks_spec agent name' subtasks' [] w1) as [Hreg _].
      destruct (run_subtasks agent name' subtasks' [] w1) as [r1 w1'].
      destruct (run_subtasks agent name' subtasks' [] w2) as [r2 w2'].
      simpl in *. subst r2. destruct r1 as [agent_results|e]; [|done].
      apply IH; [done|].
      by rewrite (available_agents_of_registries w1 w1' self Hreg).
    + rewrite (delegate_cons_unknown _ _ _ _ _ w1 Hget).
      rewrite Hav in Hget. rewrite (delegate_cons_unknown _ _ _ _ _ w2 Hget).
      by apply IH.
Qed.

(** A delegation map of unregistered names only: warnings, and no results. *)
Lemma delegate_all_unknown self items : ∀ results w,
  (∀ agent_name,
     agent_name ∈ PyDict.keys items →
     PyDict.get agent_name (available_agents_of w self) = None) →
  (delegate self items results w).1 = Ok results ∧
  same_but_logs (delegate self items results w).2 w.
Proof.
  induction items as [|[agent_name subtasks] rest IH]; intros results w Hnone;
    [done|].
  rewrite delegate_cons_unknown
    by (apply Hnone; simpl; apply elem_of_cons; by left).
  set (wl := (log WARNING _ w).2).
  destruct (IH results wl) as [Hres Hsame].
  - intros n Hn. apply Hnone. simpl. apply elem_of_cons. by right.
  - split; [done|]. destruct Hsame as (?&?&?&?&?). by split_and!.
Qed.

(** C4: an entry of the delegation map whose name is not registered raises
    nothing.  The loop logs a warning for it and goes on to the remaining
    entries with the results collected so far unchanged; the whole call
    returns what it returns without that entry, with the same calls to
    the transport, synthesis included, and the same histories.  When no
    name of the map is registered the only call issued is the synthesis
    call, over an empty block of results. *)
Theorem unknown_agent_skipped self task agent_name subtasks w :
  PyDict.get agent_name (available_agents_of w self) = None →
  (∀ rest results,
     delegate self ((agent_name, subtasks) :: rest) results w =
       delegate self rest results
         (log WARNING ("Agent " +:+ agent_name +:+ " not available, skipping")
            w).2) ∧
  (∀ pre post,
     (delegate_and_synthesize self task
        (pre ++ (agent_name, subtasks) :: post) w).1
       = (delegate_and_synthesize self task (pre ++ post) w).1 ∧
     same_but_logs
       (delegate_and_synthesize self task
          (pre ++ (agent_name, subtasks) :: post) w).2
       (delegate_and_synthesize self task (pre ++ post) w).2) ∧
  (∀ agent_tasks,
     (∀ other,
        other ∈ PyDict.keys agent_tasks →
        PyDict.get other (available_agents_of w self) = None) →
     ∃ res,
       (delegate_and_synthesize self task agent_tasks w).1 = res ∧
       events (delegate_and_synthesize self task agent_tasks w).2 =
         events w ++ [EvGenerate (run_request self (synthesis_task task [])) res] ∧
       _format_results [] = "").
Proof.
  intros Hnone. split_and!.
  - intros rest results. by apply delegate_cons_unknown.
  - intros pre post. rewrite !delegate_and_synthesize_unfold.
    destruct (delegate_skip_unknown self agent_name subtasks post pre [] w w)
      as [Hres Hsame]; [done..|].
    destruct (delegate self (pre ++ _ :: post) [] w) as [r1 w1].
    destruct (delegate self (pre ++ post) [] w) as [r2 w2].
    simpl in *. subst r2. destruct r1 as [results|e]; [|done].
    by apply run_same_but_logs.
  - intros agent_tasks Hall. rewrite !delegate_and_synthesize_unfold.
    destruct (delegate_all_unknown self agent_tasks [] w Hall)
      as [Hres (_ & _ & _ & Hb & He)].
    destruct (delegate self agent_tasks [] w) as [r1 w1].
    simpl in *. subst r1. rewrite run_unfold. simpl.
    rewrite Hb, He. eauto.
Qed.
End CoordinatorFacts.

(** ** Further properties of the base agent *)

Section BaseAgentMore.
Context {B : Type} `{!Client B} `{!PyRuntime}.
Implicit Types (w : World B) (self agent : BaseAgent) (task : string).

(** Appending keeps what was there as the beginning. *)
Lemma prefix_app_self {A} (l k : list A) : l `prefix_of` l ++ k.
Proof. by exists k. Qed.

(** X1: [reset_conversation] empties the history of its agent whatever it
    held, leaves every other agent's history, the registries and the
    transport alone, and the next [chat] sends the transport the new message
    only. *)
Theorem reset_conversation_clears self message w :
  let w1 := (reset_conversation self w).2 in
  (reset_conversation self w).1 = Ok tt ∧
  (get_conversation_history self w1).1 = Ok [] ∧
  (∀ agent, agent_id agent ≠ agent_id self →
            history_of w1 agent = history_of w agent) ∧
  registries w1 = registries w ∧
  backend w1 = backend w ∧
  events w1 = events w ∧
  ∃ res,
    events (chat self message w1).2 =
      events w ++ [EvChat (chat_request self [user_turn (PStr message)]) res].
Proof.
  intros w1. split_and!; try done.
  - unfold get_conversation_history, get_history, history_of, w1,
      reset_conversation, bind, set_history, log. simpl.
    by rewrite lookup_insert_eq.
  - intros agent Hne. unfold history_of, w1, reset_conversation, bind,
      set_history, log. simpl. by rewrite lookup_insert_ne.
  - rewrite chat_unfold. simpl.
    assert (history_of w1 self = []) as ->.
    { unfold history_of, w1, reset_conversation, bind, set_history, log.
      simpl. by rewrite lookup_insert_eq. }
    simpl. eauto.
Qed.

(** X2: [chat] sends the transport the whole history followed by the new
    user turn, and the turns a successful [run] left behind are part of it:
    after [run task] answered [response], the next [chat message] sends the
    earlier history, then [user: task], [assistant: response] and
    [user: message]. *)
Theorem chat_after_run_sends_run_turns self task context message w response b' :
  client_generate (backend w)
    (run_request self (_prepare_prompt task context)) = (Ok response, b') →
  let w1 := (run self task context w).2 in
  ∃ res,
    events (chat self message w1).2 =
      events w1
        ++ [EvChat
              (chat_request self
                 (history_of w self
                    ++ [user_turn (PStr task); assistant_turn (PStr response);
                        user_turn (PStr message)]))
              res].
Proof.
  intros Hgen w1. rewrite chat_unfold. simpl.
  assert (history_of w1 self =
            history_of w self
              ++ [user_turn (PStr task); assistant_turn (PStr response)]) as ->.
  { unfold w1. rewrite run_unfold. simpl. rewrite Hgen. simpl.
    by rewrite history_after_run, decide_True. }
  rewrite <- (assoc_L (++)). simpl. eauto.
Qed.

(** X3: [run] and [chat] on one agent never change the history of an agent
    with another identity, and never change a registry. *)
Theorem run_chat_frame self agent task context message w :
  agent_id agent ≠ agent_id self →
  history_of (run self task context w).2 agent = history_of w agent ∧
  history_of (chat self message w).2 agent = history_of w agent ∧
  registries (run self task context w).2 = registries w ∧
  registries (chat self message w).2 = registries w.
Proof.
  intros Hne. rewrite run_unfold, chat_unfold. simpl. split_and!; try done.
  - by rewrite history_after_run, decide_False.
  - by rewrite history_after_chat, decide_False.
Qed.

(** X4: a response whose [message] entry is not a mapping makes [chat]
    raise [AttributeError]: the user turn stays in the history without an
    assistant turn, the call is logged as an error, and exactly one request
    went to the transport. *)
Theorem chat_message_not_mapping self message w response_data b' field :
  client_chat (backend w)
    (chat_request self (history_of w self ++ [user_turn (PStr message)]))
    = (Ok response_data, b') →
  PyDict.get "message" response_data = Some field →
  (∀ d, field ≠ PDict d) →
  let '(r, w') := chat self message w in
  r = Raise (AttributeError field "get") ∧
  history_of w' self = history_of w self ++ [user_turn (PStr message)] ∧
  logs w' =
    logs w ++ [(ERROR, "Chat error in " +:+ name (config self) +:+ ": "
                       +:+ exn_str (AttributeError field "get"))] ∧
  length (events w') = S (length (events w)).
Proof.
  intros Hchat Hget Hfield. rewrite chat_unfold. simpl. rewrite Hchat. simpl.
  assert (extract_reply response_data = Raise (AttributeError field "get"))
    as Hreply.
  { unfold extract_reply. rewrite Hget.
    destruct field; try done. by destruct (Hfield d). }
  rewrite history_after_chat, decide_True by done. simpl.
  rewrite Hreply. split_and!; try done.
  rewrite length_app. simpl. lia.
Qed.

(** X5: two agents made one after the other by [BaseAgent.__init__] have
    different identities and both start with an empty history, so (by the
    frame property) what one of them does never shows in the history of
    the other. *)
Theorem BaseAgent_init_fresh cfg1 cfg2 task context w :
  let '(r1, w1) := BaseAgent_init cfg1 w in
  ∃ a, r1 = Ok a ∧ config a = cfg1 ∧
  let '(r2, w2) := BaseAgent_init cfg2 w1 in
  ∃ b, r2 = Ok b ∧ config b = cfg2 ∧
    agent_id a ≠ agent_id b ∧
    history_of w2 a = [] ∧
    history_of w2 b = [] ∧
    history_of (run a task context w2).2 b = [].
Proof.
  unfold BaseAgent_init, bind, set_history, log, ret. simpl.
  eexists. split_and!; [done..|].
  eexists. split_and!; [done|done|simpl; lia|..].
  - unfold history_of. simpl. rewrite lookup_insert_ne by lia.
    by rewrite lookup_insert_eq.
  - unfold history_of. simpl. by rewrite lookup_insert_eq.
  - rewrite run_unfold. simpl. rewrite history_after_run.
    rewrite decide_False by (simpl; lia).
    unfold history_of. simpl. by rewrite lookup_insert_eq.
Qed.
End BaseAgentMore.

(** ** Further properties of the coordinator *)

Section CoordinatorMore.
Context {B : Type} `{!Client B} `{!PyRuntime}.
Implicit Types (w : World B) (self agent : BaseAgent) (task : string).

Lemma set_fresh {V} k (v : V) d :
  k ∉ PyDict.keys d → PyDict.set k v d = d ++ [(k, v)].
Proof.
  induction d as [|[k' v'] d IH]; simpl; [done|].
  rewrite not_elem_of_cons. intros [Hne Hd].
  rewrite decide_False by done. by rewrite IH.
Qed.

Lemma register_all_frame self agents : ∀ w,
  (register_all self agents w).1 = Ok tt ∧
  histories (register_all self agents w).2 = histories w ∧
  backend (register_all self agents w).2 = backend w ∧
  events (register_all self agents w).2 = events w.
Proof.
  induction agents as [|agent rest IH]; intros w; [done|].
  cbn [register_all]. unfold bind. rewrite register_agent_unfold.
  destruct (IH (register_agent self agent w).2) as (? & ? & ? & ?).
  rewrite register_agent_unfold in *. done.
Qed.

Lemma register_all_registry self agents : ∀ w,
  PyDict.wf (available_agents_of w self) →
  let reg := available_agents_of w self in
  let reg' := available_agents_of (register_all self agents w).2 self in
  PyDict.wf reg' ∧
  PyDict.keys reg `prefix_of` PyDict.keys reg' ∧
  ∀ agent_name,
    PyDict.get agent_name reg' =
      match last_named agent_name agents with
      | Some agent => Some agent
      | None => PyDict.get agent_name reg
      end.
Proof.
  induction agents as [|agent rest IH]; intros w Hwf; [done|].
  cbn [register_all last_named]. unfold bind.
  pose proof (available_after_register self agent w) as Hreg.
  pose proof (register_agent_wf self agent w Hwf) as Hwf1.
  destruct (register_agent self agent w) as [[] w1] eqn:Hw1;
    [|by rewrite register_agent_unfold in Hw1].
  simpl in Hreg, Hwf1.
  destruct (IH w1 Hwf1) as (Hwf' & Hpre & Hget). split_and!; [done| |].
  - etrans; [|exact Hpre]. rewrite Hreg.
    destruct (decide (name (config agent) ∈ PyDict.keys (available_agents_of w self))).
    + by rewrite PyDictFacts.keys_set_present.
    + rewrite PyDictFacts.keys_set_fresh by done. by eexists.
  - intros agent_name. rewrite Hget.
    destruct (last_named agent_name rest); [done|]. rewrite Hreg.
    case_decide as Hn.
    + subst. apply PyDictFacts.get_set_eq.
    + by apply PyDictFacts.get_set_ne.
Qed.

(** X6: after any sequence of registrations on a registry that is a
    dictionary, the registry is still a dictionary (no name twice), the
    names that were listed before are still listed first and in the same
    order, and under each name the registry holds the agent registered last
    with that name, or what it held before when none was.  Registering
    issues no call to the transport and changes no history. *)
Theorem registrations_keep_registry self agents w :
  PyDict.wf (available_agents_of w self) →
  let w' := (register_all self agents w).2 in
  (∃ names,
     (list_available_agents self w').1 = Ok names ∧ NoDup names ∧
     PyDict.keys (available_agents_of w self) `prefix_of` names) ∧
  (∀ agent_name,
     PyDict.get agent_name (available_agents_of w' self) =
       match last_named agent_name agents with
       | Some agent => Some agent
       | None => PyDict.get agent_name (available_agents_of w self)
       end) ∧
  histories w' = histories w ∧ events w' = events w.
Proof.
  intros Hwf w'.
  destruct (register_all_registry self agents w Hwf) as (Hwf' & Hpre & Hget).
  destruct (register_all_frame self agents w) as (_ & Hh & _ & He).
  split_and!; try done. eexists. split_and!; [done| |]; done.
Qed.

(** X7: registering an agent under a name that is not listed appends the
    name to [list_available_agents]; under a name that is listed it leaves
    the list as it is; and the entries of all other names stay what they
    were. *)
Theorem register_agent_order self agent w :
  let names := PyDict.keys (available_agents_of w self) in
  let w' := (register_agent self agent w).2 in
  (list_available_agents self w).1 = Ok names ∧
  (list_available_agents self w').1 =
    Ok (if decide (name (config agent) ∈ names) then names
        else names ++ [name (config agent)]) ∧
  ∀ other,
    other ≠ name (config agent) →
    PyDict.get other (available_agents_of w' self)
      = PyDict.get other (available_agents_of w self).
Proof.
  intros names w'. split_and!; [done| |].
  - unfold list_available_agents, bind, get_available_agents, ret. simpl.
    unfold w'. rewrite available_after_register. fold names. case_decide.
    + by rewrite PyDictFacts.keys_set_present.
    + by rewrite PyDictFacts.keys_set_fresh.
  - intros other Hne. unfold w'. rewrite available_after_register.
    by apply PyDictFacts.get_set_ne.
Qed.

Lemma responses_app evs1 evs2 :
  responses (evs1 ++ evs2) = responses evs1 ++ responses evs2.
Proof. unfold responses. apply omap_app. Qed.

(** What the inner loop collects, and what it does to the histories. *)
Lemma run_subtasks_full agent agent_name subtasks : ∀ acc w,
  ∃ evs,
    events (run_subtasks agent agent_name subtasks acc w).2 = events w ++ evs ∧
    (∀ results,
       (run_subtasks agent agent_name subtasks acc w).1 = Ok results →
       results = acc ++ responses evs ∧
       length (responses evs) = length subtasks) ∧
    (∀ a, history_of w a
            `prefix_of` history_of (run_subtasks agent agent_name subtasks acc w).2 a) ∧
    (∀ a, agent_id a ≠ agent_id agent →
          history_of (run_subtasks agent agent_name subtasks acc w).2 a
            = history_of w a).
Proof.
  induction subtasks as [|subtask rest IH]; intros acc w.
  - exists []. simpl. rewrite !app_nil_r. split_and!; try done.
    by intros results [= <-].
  - rewrite run_subtasks_cons. cbv zeta.
    set (wl := (log _ _ w).2). set (req := run_request agent subtask).
    destruct (client_generate (backend w) req) as [[response|e] b'].
    + destruct (IH (acc ++ [response])
                  (after_run agent subtask req (Ok response) b' wl))
        as (evs & Hev & Hres & Hpre & Hframe).
      exists (EvGenerate req (Ok response) :: evs). split_and!.
      * rewrite Hev. simpl. by rewrite <- (assoc_L (++)).
      * intros results Hok. apply Hres in Hok as [-> Hlen].
        simpl. rewrite <- (assoc_L (++)). split; [done|]. by rewrite Hlen.
      * intros a. etrans; [|apply Hpre]. rewrite history_after_run.
        case_decide; [apply prefix_app_self | done].
      * intros a Hne. rewrite Hframe by done.
        by rewrite history_after_run, decide_False.
    + exists [EvGenerate req (Raise e)]. split_and!; done.
Qed.

Lemma get_Some_keys {V} k (v : V) d : PyDict.get k d = Some v → k ∈ PyDict.keys d.
Proof.
  intros Hget. destruct (decide (k ∈ PyDict.keys d)) as [|Hout]; [done|].
  apply PyDictFacts.get_None_keys in Hout. congruence.
Qed.

Lemma registered_get available agent_name :
  registered available agent_name ↔ is_Some (PyDict.get agent_name available).
Proof.
  unfold registered, PyDict.contains.
  destruct (PyDict.get agent_name available); split; done.
Qed.

(** What the outer loop collects. *)
Lemma delegate_full self items : ∀ results0 w,
  PyDict.wf items →
  (∀ n, n ∈ PyDict.keys items → n ∉ PyDict.keys results0) →
  ∃ evs,
    events (delegate self items results0 w).2 = events w ++ evs ∧
    ∀ results',
      (delegate self items results0 w).1 = Ok results' →
      ∃ added,
        results' = results0 ++ added ∧
        PyDict.keys added
          = filter (registered (available_agents_of w self)) (PyDict.keys items) ∧
        concat (map snd added) = responses evs ∧
        Forall (λ entry, ∃ subtasks,
                  PyDict.get entry.1 items = Some subtasks ∧
                  length entry.2 = length subtasks) added.
Proof.
  induction items as [|[agent_name subtasks] rest IH];
    intros results0 w Hwf Hfresh.
  - exists []. simpl. rewrite app_nil_r. split; [done|].
    intros results' [= <-]. exists []. by rewrite app_nil_r.
  - apply NoDup_cons in Hwf as [Hhead Hwf]. fold (PyDict.keys rest) in Hhead.
    simpl PyDict.keys. rewrite filter_cons.
    destruct (PyDict.get agent_name (available_agents_of w self))
      as [agent|] eqn:Hget.
    + rewrite decide_True by (apply registered_get; by rewrite Hget).
      rewrite (delegate_cons_known _ _ _ _ _ _ _ Hget).
      destruct (run_subtasks_full agent agent_name subtasks [] w)
        as (evs1 & Hev1 & Hres1 & _).
      destruct (run_subtasks_spec agent agent_name subtasks [] w) as [Hreg _].
      destruct (run_subtasks agent agent_name subtasks [] w)
        as [[agent_results|e] w1]; simpl in *.
      * destruct (Hres1 _ eq_refl) as [-> Hlen1].
        rewrite set_fresh
          by (apply Hfresh; apply elem_of_cons; by left).
        destruct (IH (results0 ++ [(agent_name, responses evs1)]) w1 Hwf)
          as (evs & Hev & Hres).
        { intros n Hn. unfold PyDict.keys. rewrite map_app.
          rewrite not_elem_of_app. split.
          - apply Hfresh. apply elem_of_cons. by right.
          - simpl. rewrite list_elem_of_singleton. by intros ->. }
        exists (evs1 ++ evs). split.
        { by rewrite Hev, Hev1, <- (assoc_L (++)). }
        intros results' Hok. apply Hres in Hok
          as (added & -> & Hkeys & Hconcat & Hall).
        exists ((agent_name, responses evs1) :: added).
        rewrite (available_agents_of_registries w w1 self Hreg) in Hkeys.
        split_and!.
        -- by rewrite <- (assoc_L (++)).
        -- simpl. by rewrite Hkeys.
        -- simpl. by rewrite Hconcat, responses_app.
        -- apply Forall_cons. split.
           ++ exists subtasks. simpl. by rewrite decide_True.
           ++ eapply Forall_impl; [exact Hall|].
              intros [n outs] (subs & Hn & Hlen). exists subs. simpl in *.
              split; [|done]. rewrite decide_False; [done|].
              intros ->. by apply get_Some_keys in Hn.
      * exists evs1. split; [done|]. done.
    + rewrite decide_False
        by (rewrite registered_get, Hget; by intros [? ?]).
      rewrite (delegate_cons_unknown _ _ _ _ _ _ Hget).
      set (wl := (log WARNING _ w).2).
      destruct (IH results0 wl Hwf) as (evs & Hev & Hres).
      { intros n Hn. apply Hfresh. apply elem_of_cons. by right. }
      exists evs. split; [done|].
      intros results' Hok. apply Hres in Hok
        as (added & -> & Hkeys & Hconcat & Hall).
      exists added. split_and!; try done.
      eapply Forall_impl; [exact Hall|].
      intros [n outs] (subs & Hn & Hlen). exists subs. simpl in *.
      split; [|done]. rewrite decide_False; [done|].
      intros ->. by apply get_Some_keys in Hn.
Qed.

(** X8: when [delegate_and_synthesize] goes through without a call raising,
    the results block of its synthesis call has one entry per registered
    name of the delegation map, in the order of the map; each entry holds
    as many outputs as the name had subtasks; and read entry after entry
    the outputs are the texts the transport returned to the subtask calls,
    in the order the calls were made. *)
Theorem delegation_results self task agent_tasks w evs :
  PyDict.wf agent_tasks →
  events (delegate_and_synthesize self task agent_tasks w).2
    = events w ++ evs →
  Forall (λ ev, event_ok ev = true) evs →
  ∃ results final,
    (delegate_and_synthesize self task agent_tasks w).1 = Ok final ∧
    last (generate_calls evs)
      = Some (run_request self (synthesis_task task results)) ∧
    PyDict.keys results
      = filter (registered (available_agents_of w self))
          (PyDict.keys agent_tasks) ∧
    responses evs = concat (map snd results) ++ [final] ∧
    Forall (λ entry, ∃ subtasks,
              PyDict.get entry.1 agent_tasks = Some subtasks ∧
              length entry.2 = length subtasks) results.
Proof.
  intros Hwf Hevs Hok. rewrite delegate_and_synthesize_unfold in *.
  destruct (delegate_full self agent_tasks [] w Hwf) as (evs1 & Hev1 & Hres1).
  { intros n _. apply not_elem_of_nil. }
  destruct (delegate_spec self agent_tasks [] w) as (_ & evs2 & Hev2 & Hshape & _).
  rewrite Hev1 in Hev2. apply app_inv_head in Hev2. subst evs2.
  destruct (delegate self agent_tasks [] w) as [[results|e] w1]; simpl in *.
  - destruct (Hres1 _ eq_refl) as (added & -> & Hkeys & Hconcat & Hall).
    rewrite run_unfold in *. simpl in *.
    rewrite Hev1, <- (assoc_L (++)) in Hevs. apply app_inv_head in Hevs.
    subst evs. apply Forall_app in Hok as [_ Hlast].
    apply Forall_cons in Hlast as [Hlast _]. simpl in Hlast.
    destruct (client_generate (backend w1) _) as [[final|e] b'] eqn:Hgen;
      [|done].
    exists added, final. simpl. split_and!; try done.
    + unfold generate_calls. rewrite omap_app. simpl. by rewrite last_snoc.
    + by rewrite responses_app, Hconcat.
  - rewrite Hev1 in Hevs. apply app_inv_head in Hevs. subst evs.
    destruct Hshape as (pre & req & -> & _).
    by apply (no_raise_in_ok pre req e []) in Hok.
Qed.

(** What the outer loop does to the histories. *)
Lemma delegate_histories self items : ∀ results w,
  (∀ a, history_of w a `prefix_of` history_of (delegate self items results w).2 a) ∧
  (∀ a,
     (∀ n agent,
        PyDict.get n (available_agents_of w self) = Some agent →
        agent_id agent ≠ agent_id a) →
     history_of (delegate self items results w).2 a = history_of w a).
Proof.
  induction items as [|[agent_name subtasks] rest IH]; intros results w;
    [done|].
  destruct (PyDict.get agent_name (available_agents_of w self))
    as [agent|] eqn:Hget.
  - rewrite (delegate_cons_known _ _ _ _ _ _ _ Hget).
    destruct (run_subtasks_full agent agent_name subtasks [] w)
      as (evs1 & _ & _ & Hpre1 & Hframe1).
    destruct (run_subtasks_spec agent agent_name subtasks [] w) as [Hreg _].
    destruct (run_subtasks agent agent_name subtasks [] w)
      as [[agent_results|e] w1]; simpl in *.
    2: { split; [done|]. intros a Ha. apply Hframe1.
         intros Heq. by apply (Ha _ _ Hget). }
    destruct (IH (PyDict.set agent_name agent_results results) w1)
      as [Hpre Hframe].
    rewrite (available_agents_of_registries w w1 self Hreg) in Hframe.
    split.
    + intros a. etrans; [apply Hpre1 | apply Hpre].
    + intros a Ha. rewrite Hframe by done. apply Hframe1.
      intros Heq. by apply (Ha _ _ Hget).
  - rewrite (delegate_cons_unknown _ _ _ _ _ _ Hget).
    apply (IH results (log WARNING _ w).2).
Qed.

(** X9: [delegate_and_synthesize] only ever appends to histories: whatever
    an agent's history held before the call is still its beginning after
    the call, whether the call returns or raises.  The registries are left
    alone; the history of an agent that is neither the coordinator nor
    registered with it is not touched; and when the call returns and the
    coordinator is not registered with itself, the coordinator's own history
    has grown by exactly two turns: the synthesis text, built from the task
    and the results the delegation loop collected, and the answer
    returned. *)
Theorem delegation_histories self task agent_tasks w :
  let w' := (delegate_and_synthesize self task agent_tasks w).2 in
  registries w' = registries w ∧
  (∀ a, history_of w a `prefix_of` history_of w' a) ∧
  (∀ a,
     agent_id a ≠ agent_id self →
     (∀ n agent,
        PyDict.get n (available_agents_of w self) = Some agent →
        agent_id agent ≠ agent_id a) →
     history_of w' a = history_of w a) ∧
  (∀ final,
     (delegate_and_synthesize self task agent_tasks w).1 = Ok final →
     (∀ n agent,
        PyDict.get n (available_agents_of w self) = Some agent →
        agent_id agent ≠ agent_id self) →
     ∃ results,
       (delegate self agent_tasks [] w).1 = Ok results ∧
       history_of w' self =
         history_of w self
           ++ [user_turn (PStr (synthesis_task task results));
               assistant_turn (PStr final)]).
Proof.
  intros w'. unfold w'. rewrite delegate_and_synthesize_unfold.
  destruct (delegate_histories self agent_tasks [] w) as [Hpre Hframe].
  destruct (delegate_spec self agent_tasks [] w) as [Hreg _].
  destruct (delegate self agent_tasks [] w) as [[results|e] w1]; simpl in *.
  2: { split_and!; [done|done| |done]. intros a _ Ha. by apply Hframe. }
  rewrite run_unfold. simpl. split_and!; [done|..].
  - intros a. etrans; [apply Hpre|]. rewrite history_after_run.
    case_decide; [apply prefix_app_self | done].
  - intros a Hself Ha.
    rewrite history_after_run, decide_False by done. by apply Hframe.
  - intros final Hfinal Hunreg. exists results. split; [done|].
    rewrite history_after_run, decide_True by done.
    rewrite Hfinal. by rewrite Hframe.
Qed.
End CoordinatorMore.

(** ** Planning and the task helpers *)

Section PlanningFacts.
Context {B : Type} `{!Client B} `{!PyRuntime} `{!Capabilities}.
Implicit Types (w : World B) (self agent : BaseAgent) (task : string).

Lemma collect_capabilities_wf_aux (available : PyDict.t BaseAgent) :
  ∀ acc,
    PyDict.wf available →
    (∀ n, n ∈ PyDict.keys available → n ∉ PyDict.keys acc) →
    foldl (λ capabilities '(agent_name, agent),
             PyDict.set agent_name (get_capabilities agent) capabilities)
          acc available
      = acc ++ map (λ entry, (entry.1, get_capabilities entry.2)) available.
Proof.
  induction available as [|[n agent] rest IH]; intros acc Hwf Hfresh; simpl.
  - by rewrite app_nil_r.
  - apply NoDup_cons in Hwf as [Hhead Hwf]. fold (PyDict.keys rest) in Hhead.
    rewrite set_fresh by (apply Hfresh; apply elem_of_cons; by left).
    rewrite IH; [by rewrite <- (assoc_L (++))|done|].
    intros m Hm. unfold PyDict.keys. rewrite map_app, not_elem_of_app. split.
    + apply Hfresh. apply elem_of_cons. by right.
    + simpl. rewrite list_elem_of_singleton. by intros ->.
Qed.

(** X10: [plan_task] issues exactly one call to the transport, with the
    coordinator's own configuration and the planning text built from the
    task and the registry; no registered agent is run.  It returns the
    answer under [plan] with the task under [task], or raises what the
    transport raised.  It changes no registry and no history but the
    coordinator's, which (as with every [run]) gains the planning text and
    the answer when the call succeeds. *)
Theorem plan_task_single_call self task w :
  let req :=
    run_request self
      (planning_task task (collect_capabilities (available_agents_of w self))) in
  let '(r, w') := plan_task self task w in
  ∃ res,
    events w' = events w ++ [EvGenerate req res] ∧
    r = match res with
        | Ok plan => Ok [("plan", PStr plan); ("task", PStr task)]
        | Raise e => Raise e
        end ∧
    registries w' = registries w ∧
    (∀ a, agent_id a ≠ agent_id self → history_of w' a = history_of w a) ∧
    history_of w' self =
      history_of w self
        ++ match res with
           | Ok plan => [user_turn (PStr (g_prompt req)); assistant_turn (PStr plan)]
           | Raise _ => []
           end.
Proof.
  intros req. unfold plan_task, bind, get_available_agents, ret.
  rewrite run_unfold. simpl. fold req.
  destruct (client_generate (backend w) req) as [[plan|e] b']; simpl.
  - exists (Ok plan). split_and!; try done.
    + intros a Hne. by rewrite history_after_run, decide_False.
    + by rewrite history_after_run, decide_True.
  - exists (Raise e). split_and!; try done. by rewrite app_nil_r.
Qed.

(** X11: with a registry that is a dictionary, the capabilities block of
    the planning text has one line per registered agent, in registration
    order: a dash, the registered name, a colon and the agent's
    capabilities separated by commas. *)
Theorem plan_task_capabilities_block (available : PyDict.t BaseAgent) :
  PyDict.wf available →
  _format_capabilities (collect_capabilities available) =
    String.concat nl
      (map (λ entry,
              "- " +:+ entry.1 +:+ ": "
              +:+ String.concat ", " (get_capabilities entry.2))
           available).
Proof.
  intros Hwf. unfold collect_capabilities.
  rewrite collect_capabilities_wf_aux; [|done|intros n _; apply not_elem_of_nil].
  simpl. unfold _format_capabilities. rewrite map_map. f_equal.
Qed.
End PlanningFacts.

Section HelperFacts.
Context {B : Type} `{!Client B} `{!PyRuntime}.

End HelperFacts.

(** ** Strings *)

Section StringFacts.

Lemma lower_ascii_idem c : lower_ascii (lower_ascii c) = lower_ascii c.
Proof. destruct c as [[] [] [] [] [] [] [] []]; reflexivity. Qed.

Lemma lower_idem s : lower (lower s) = lower s.
Proof. induction s as [|c s IH]; simpl; [done|]. by rewrite lower_ascii_idem, IH. Qed.

Lemma occurs_split_first c s : occurs c (split_first c s) = false.
Proof.
  induction s as [|a s IH]; simpl; [done|].
  case_decide as Ha; simpl; [done|]. by rewrite bool_decide_eq_false_2, IH.
Qed.

Lemma prefix_occurs c needle : ∀ haystack,
  String.prefix needle haystack = true →
  occurs c needle = true → occurs c haystack = true.
Proof.
  induction needle as [|a needle IH]; intros haystack Hpre Hocc; simpl in *;
    [done|].
  destruct haystack as [|b haystack]; simpl in Hpre; [done|].
  destruct (Ascii.ascii_dec a b) as [->|]; [|done]. simpl.
  apply orb_true_iff in Hocc as [Hocc|Hocc]; [by rewrite Hocc|].
  rewrite (IH _ Hpre Hocc). apply orb_true_r.
Qed.

(** A string occurs in another only if all its characters do. *)
Lemma is_substring_occurs c needle haystack :
  is_substring needle haystack = true →
  occurs c needle = true → occurs c haystack = true.
Proof.
  intros Hsub Hocc. induction haystack as [|b haystack IH]; simpl in *.
  - rewrite orb_false_r in Hsub. by apply (prefix_occurs c needle "").
  - apply orb_true_iff in Hsub as [Hpre|Hsub].
    + by apply (prefix_occurs c needle (String b haystack)).
    + rewrite (IH Hsub). apply orb_true_r.
Qed.

Lemma rstrip_not_suffix c s : ∀ p, rstrip c s ≠ p +:+ String c "".
Proof.
  induction s as [|a s IH]; intros p; simpl.
  - by destruct p.
  - destruct (rstrip c s) as [|b r] eqn:Hr.
    + case_decide as Ha.
      * by destruct p.
      * destruct p as [|a' p]; simpl.
        -- by intros [= ?].
        -- intros [= _ Hp]. by destruct p.
    + destruct p as [|a' p]; simpl; [done|].
      intros [= _ Hp]. by apply (IH p).
Qed.

Lemma rstrip_idem c s : rstrip c (rstrip c s) = rstrip c s.
Proof.
  induction s as [|a s IH]; simpl; [done|].
  destruct (rstrip c s) as [|b r] eqn:Hr.
  - case_decide as Ha; simpl; [done|]. by rewrite decide_False.
  - simpl in *. by rewrite IH.
Qed.
End StringFacts.

Lemma rstrip_removes_only c s :
  ∃ n, s = rstrip c s +:+ String.string_of_list_ascii (replicate n c).
Proof.
  induction s as [|a s [n IH]]; simpl.
  - by exists 0.
  - destruct (rstrip c s) as [|b r] eqn:Hr.
    + case_decide as Ha.
      * subst a. exists (S n). rewrite IH at 1. reflexivity.
      * exists n. rewrite IH at 1. reflexivity.
    + exists n. rewrite IH at 1. reflexivity.
Qed.

(** ** The Ollama client *)

Module OllamaClientFacts.
Import OllamaClient.
Section Facts.
Context {H : Type} `{!Http H}.
Implicit Types (w : World H) (self : OllamaClient.t).

(** X13: [OllamaClient.__init__] keeps the host without its trailing
    slashes: the stored host never ends in a slash, what was cut off the
    given host is slashes only, and a host stored once is stored unchanged a
    second time. *)
Theorem init_host_normalised (given : string) (timeout : Z) w :
  ∃ self,
    (init given timeout w).1 = Ok self ∧
    (∀ p, host self ≠ p +:+ "/") ∧
    (∃ n, given = host self +:+ String.string_of_list_ascii (replicate n "/"%char)) ∧
    (init (host self) timeout w).1 = Ok self.
Proof.
  eexists. split_and!; [reflexivity|..]; simpl.
  - apply rstrip_not_suffix.
  - apply rstrip_removes_only.
  - unfold init, bind, ret, log. simpl. by rewrite rstrip_idem.
Qed.

(** X14: [check_health] never raises.  It answers [True] exactly when the
    GET on the host came back with a text that contains
    [Ollama is running]; the status of the response plays no part.  When
    the GET raises it logs the error and answers [False]. *)
Theorem check_health_total self w :
  let '(r, w') := check_health self w in
  ∃ healthy,
    r = Ok healthy ∧
    (healthy = true ↔
       ∃ response h',
         http_get (backend w) (host self) = (Ok response, h') ∧
         is_substring "Ollama is running" (text response) = true) ∧
    (∀ e h',
       http_get (backend w) (host self) = (Raise e, h') →
       logs w' = logs w ++ [(ERROR, "Health check failed: " +:+ exn_str e)]) ∧
    histories w' = histories w ∧ registries w' = registries w.
Proof.
  unfold check_health, try_except, bind, get, ret, log.
  destruct (http_get (backend w) (host self)) as [[response|e] h'] eqn:Hget;
    simpl.
  - eexists. split_and!; [done| |done..]. split.
    + intros Hsub. by exists response, h'.
    + by intros (response' & h'' & [= <- <-] & Hsub).
  - exists false. split_and!; [done| |by intros e' h'' [= <- <-]|done..].
    split; [done|]. by intros (? & ? & ? & _).
Qed.


(** X16: the payload [generate] posts always carries the model, the
    prompt, the stream flag and the options with the temperature.  It
    carries a [system] entry exactly when a system prompt was given and is
    not empty, and the options carry [num_predict] exactly when a token
    limit was given and is not zero. *)
Theorem generate_payload_entries model prompt system temperature max_tokens
    stream :
  let payload :=
    generate_payload model prompt system temperature max_tokens stream in
  PyDict.get "model" payload = Some (PStr model) ∧
  PyDict.get "prompt" payload = Some (PStr prompt) ∧
  PyDict.get "stream" payload = Some (PBool stream) ∧
  (∃ options,
     PyDict.get "options" payload = Some (PDict options) ∧
     PyDict.get "temperature" options = Some (PFloat temperature) ∧
     PyDict.get "num_predict" options =
       match max_tokens with
       | Some n => if decide (n = 0%Z) then None else Some (PInt n)
       | None => None
       end) ∧
  PyDict.get "system" payload =
    match system with
    | Some s => if decide (s = "") then None else Some (PStr s)
    | None => None
    end.
Proof.
  unfold generate_payload, payload_options.
  destruct system as [[|c s]|], max_tokens as [n|]; simpl;
    try destruct (decide (n = 0%Z)); simpl; split_and!; try done;
    eexists; split_and!; done.
Qed.


(** X18: what [generate] returns when the request went through with a good
    status.  Without streaming it is the [response] entry of the JSON body,
    or the empty string when the body has no such entry.  With [stream]
    set it is [None], and the body is not even read. *)
Theorem generate_result self model prompt system temperature max_tokens
    stream w response h' :
  http_post (backend w) (host self +:+ "/api/generate")
    (PDict (generate_payload model prompt system temperature max_tokens stream))
    = (Ok response, h') →
  status_error response = None →
  let r :=
    (generate self model prompt system temperature max_tokens stream w).1 in
  (stream = true → r = Ok PNone) ∧
  (stream = false →
   ∀ d, json response = Ok (PDict d) →
        r = Ok (default (PStr "") (PyDict.get "response" d))).
Proof.
  intros Hpost Hstatus r. unfold r, generate, try_except, bind, post,
    raise_for_status, lift, ret, raise, log.
  rewrite Hpost. simpl. rewrite Hstatus. simpl. split.
  - by intros ->.
  - intros -> d Hjson. simpl. by rewrite Hjson.
Qed.
End Facts.
End OllamaClientFacts.

(** ** The model manager *)

Module ModelManagerFacts.
Import ModelManager.
Section Facts.
Context {C : Type} `{!ModelClient C}.
Implicit Types (w : World C) (self : ModelManager.t).

Lemma get_Some_elem_of {V} k (v : V) d : PyDict.get k d = Some v → (k, v) ∈ d.
Proof.
  induction d as [|[k' v'] d IH]; simpl; [done|].
  case_decide as Hk.
  - intros [= ->]. subst. apply elem_of_cons. by left.
  - intros Hget. apply elem_of_cons. right. by apply IH.
Qed.

(** Every model the use-case table names is in the catalog. *)
Lemma use_case_mapping_in_catalog use_case model_key :
  PyDict.get use_case use_case_mapping = Some model_key →
  model_key ≠ "" ∧ is_Some (PyDict.get model_key MODELS_CATALOG).
Proof.
  intros Hget. apply get_Some_elem_of in Hget.
  unfold use_case_mapping in Hget.
  repeat (apply elem_of_cons in Hget as [[= -> ->]|Hget];
          [split; [done | by eexists]|]).
  by apply elem_of_nil in Hget.
Qed.

(** X19: [get_recommended_model] always recommends a model of the
    catalog, never [None], and does not talk to the client: either it logs
    nothing, or it recommends the catalog's [llama3.2] and logs a warning.
    For an ASCII use case the model is the one its table has for the
    lower-cased use case, and [llama3.2] with the warning when the table
    has none. *)
Theorem get_recommended_model_total (use_case : string) w :
  let warning :=
    (WARNING, "No specific model for use case '" +:+ use_case
              +:+ "', defaulting to llama3.2") in
  let '(r, w') := get_recommended_model use_case w in
  ∃ model_key info,
    r = Ok (Some info) ∧
    PyDict.get model_key MODELS_CATALOG = Some info ∧
    backend w' = backend w ∧
    (w' = w ∨ model_key = "llama3.2" ∧ logs w' = logs w ++ [warning]) ∧
    (is_ascii use_case = true →
     match PyDict.get (lower use_case) use_case_mapping with
     | Some mapped => model_key = mapped ∧ w' = w
     | None => model_key = "llama3.2" ∧ logs w' = logs w ++ [warning]
     end).
Proof.
  intros warning. unfold get_recommended_model.
  destruct (PyDict.get (lower use_case) use_case_mapping) as [mapped|] eqn:Hmap.
  - destruct (use_case_mapping_in_catalog _ _ Hmap) as [Hne [info Hinfo]].
    destruct mapped as [|c mapped]; [done|].
    unfold ret. cbv beta iota zeta. exists (String c mapped), info.
    rewrite Hinfo. split_and!; [done|done|done|by left|done].
  - unfold bind, log, ret. simpl. eexists "llama3.2", _.
    split_and!; [reflexivity|reflexivity|reflexivity|by right|done].
Qed.

(** X20: the recommendation does not depend on the letter case of the use
    case: a use case and its lower-case form get the same model. *)
Theorem get_recommended_model_ignores_case (use_case : string) w :
  (get_recommended_model use_case w).1
    = (get_recommended_model (lower use_case) w).1.
Proof.
  unfold get_recommended_model. rewrite lower_idem.
  destruct (PyDict.get (lower use_case) use_case_mapping) as [[|c mapped]|];
    reflexivity.
Qed.

Lemma model_name_no_colon m n :
  model_name m = Ok n → occurs ":" n = false.
Proof.
  unfold model_name.
  destruct (default (PStr "") (PyDict.get "name" m)); try done.
  intros [= <-]. apply occurs_split_first.
Qed.

Lemma model_names_spec models : ∀ names,
  model_names models = Ok names →
  length names = length models ∧
  Forall (λ n, occurs ":" n = false) names.
Proof.
  induction models as [|m rest IH]; intros names; simpl.
  - by intros [= <-].
  - destruct (model_name m) as [n|e] eqn:Hn; [|done].
    destruct (model_names rest) as [ns|e]; [|done].
    intros [= <-]. destruct (IH ns eq_refl) as [Hlen Hall].
    split; [simpl; by rewrite Hlen|].
    apply Forall_cons. split; [by eapply model_name_no_colon | done].
Qed.

Lemma refresh_unfold self w :
  refresh_available_models self w =
    let '(models, c') := client_list_models (backend w) in
    match model_names models with
    | Ok names =>
        (Ok (names,
             {| _loaded_models := _loaded_models self;
                _available_models := names |}),
         {| histories := histories w; registries := registries w;
            next_id := next_id w; backend := c'; events := events w;
            logs := logs w ++ [(INFO, "Available models refreshed: "
                                      +:+ pretty (length names) +:+ " found")] |})
    | Raise e => (Raise e, with_client w c')
    end.
Proof.
  unfold refresh_available_models, bind, list_models, lift, log, ret.
  destruct (client_list_models (backend w)) as [models c']. simpl.
  by destruct (model_names models).
Qed.

(** X21: [refresh_available_models] returns one name per model the client
    listed, each cut before its first colon, so that no returned name
    contains a colon; the manager keeps exactly these names.  A listed
    model whose [name] is not a string makes the call raise. *)
Theorem refresh_available_models_names self w :
  let models := (client_list_models (backend w)).1 in
  let '(r, w') := refresh_available_models self w in
  backend w' = (client_list_models (backend w)).2 ∧
  match r with
  | Ok (names, self') =>
      model_names models = Ok names ∧
      length names = length models ∧
      Forall (λ n, occurs ":" n = false) names ∧
      _available_models self' = names ∧
      _loaded_models self' = _loaded_models self
  | Raise e => model_names models = Raise e
  end.
Proof.
  rewrite refresh_unfold.
  destruct (client_list_models (backend w)) as [models c']. simpl.
  destruct (model_names models) as [names|e] eqn:Hnames; simpl; [|done].
  destruct (model_names_spec models names Hnames) as [Hlen Hall]. done.
Qed.

(** X22: for a key that is not in the catalog, [ensure_model_available]
    answers [False] and [get_model_stats] answers [None], and neither talks
    to the client nor changes the manager. *)
Theorem unknown_model_key self (model_key : string) w :
  PyDict.get model_key MODELS_CATALOG = None →
  ensure_model_available self model_key w =
    (Ok (false, self),
     (log ERROR ("Model " +:+ model_key +:+ " not found in catalog") w).2) ∧
  get_model_stats model_key w = (Ok None, w).
Proof.
  intros Hnone. unfold ensure_model_available, get_model_stats, get_model_info.
  by rewrite Hnone.
Qed.

Lemma tagged_never_listed needle names :
  occurs ":" needle = true →
  Forall (λ n, occurs ":" n = false) names →
  existsb (is_substring needle) names = false.
Proof.
  intros Htag Hall. induction Hall as [|n names Hn _ IH]; simpl; [done|].
  rewrite IH, orb_false_r.
  destruct (is_substring needle n) eqn:Hsub; [|done].
  by rewrite (is_substring_occurs ":" _ _ Hsub Htag) in Hn.
Qed.

(** X23: a catalog model whose Ollama name carries a tag (a colon) is never
    found among the available models, because their names were cut at the
    colon: whenever the listing goes through, [ensure_model_available]
    asks the client to pull the model, even when it is installed, and
    answers with what the pull answered. *)
Theorem tagged_model_always_pulled self (model_key : string) info w models c1
    names success c2 :
  PyDict.get model_key MODELS_CATALOG = Some info →
  occurs ":" (ollama_name info) = true →
  client_list_models (backend w) = (models, c1) →
  model_names models = Ok names →
  client_pull_model c1 (ollama_name info) = (success, c2) →
  let '(r, w') := ensure_model_available self model_key w in
  (∀ answer self', r = Ok (answer, self') → answer = success) ∧
  (success = false → r = Ok (false,
                             {| _loaded_models := _loaded_models self;
                                _available_models := names |}) ∧
                     backend w' = c2) ∧
  (success = true → backend w' = (client_list_models c2).2).
Proof.
  intros Hinfo Htag Hlist Hnames Hpull.
  unfold ensure_model_available, get_model_info. rewrite Hinfo.
  unfold bind at 1. rewrite refresh_unfold, Hlist. simpl. rewrite Hnames.
  simpl.
  rewrite (tagged_never_listed _ names Htag)
    by (by apply (model_names_spec models)).
  unfold bind at 1. unfold log at 1. simpl.
  unfold bind at 1. unfold pull_model at 1. simpl. rewrite Hpull. simpl.
  destruct success.
  - unfold bind at 1. rewrite refresh_unfold. simpl.
    destruct (client_list_models c2) as [models2 c3]. simpl.
    destruct (model_names models2) as [names2|e]; simpl; split_and!; try done.
    by intros answer self' [= <- _].
  - unfold ret. simpl. split_and!; try done. by intros answer self' [= <- _].
Qed.

(** X24: when the Ollama name of the model occurs in one of the refreshed
    names, [ensure_model_available] answers [True] after the listing alone:
    the client is not asked to pull. *)
Theorem listed_model_not_pulled self (model_key : string) info w models c1
    names :
  PyDict.get model_key MODELS_CATALOG = Some info →
  client_list_models (backend w) = (models, c1) →
  model_names models = Ok names →
  existsb (is_substring (ollama_name info)) names = true →
  let '(r, w') := ensure_model_available self model_key w in
  r = Ok (true, {| _loaded_models := _loaded_models self;
                   _available_models := names |}) ∧
  backend w' = c1.
Proof.
  intros Hinfo Hlist Hnames Hfound.
  unfold ensure_model_available, get_model_info. rewrite Hinfo.
  unfold bind at 1. rewrite refresh_unfold, Hlist. simpl. rewrite Hnames.
  simpl. rewrite Hfound. done.
Qed.
End Facts.
End ModelManagerFacts.

(** ** The server endpoints *)

Module ServerFacts.
Import Server.
Section Facts.
Context {B : Type} `{!Client B} `{!PyRuntime}.
Implicit Types (w : World B) (agents : PyDict.t BaseAgent).

(** X25: the chat endpoint never lets an exception of the agent out: it
    answers with a body or with an [HTTPException], and the only ones are a
    404, with nothing touched, and a 500.  For an ASCII agent id it answers
    404 exactly when the lower-cased id is not a key of the agents, naming
    the lower-cased id; a failing [chat] becomes a 500 whose detail is the
    text of the exception, and the user's message stays in the agent's
    history without a reply; otherwise the body holds the reply. *)
Theorem chat_endpoint_replies agents (agent_id message : string) w :
  let '(r, w') := chat_with_agent agents agent_id message w in
  ∃ reply,
    r = Ok reply ∧
    match reply with
    | Response _ => True
    | HTTPException status_code _ =>
        status_code = 404%Z ∧ w' = w ∨ status_code = 500%Z
    end ∧
    (is_ascii agent_id = true →
     match PyDict.get (lower agent_id) agents with
     | None =>
         reply = HTTPException 404 ("Agent '" +:+ lower agent_id +:+ "' not found") ∧
         w' = w
     | Some agent =>
         match (chat agent message w).1 with
         | Ok response =>
             reply = Response [("response", response)] ∧
             w' = (chat agent message w).2
         | Raise e =>
             reply = HTTPException 500 (exn_str e) ∧
             history_of w' agent =
               history_of w agent ++ [user_turn (PStr message)]
         end
     end).
Proof.
  unfold chat_with_agent.
  destruct (PyDict.get (lower agent_id) agents) as [agent|].
  2: { eexists. split_and!; [reflexivity|by left|done]. }
  unfold try_except, bind at 1. rewrite chat_unfold. cbv zeta.
  set (req := chat_request _ _).
  destruct (client_chat (backend w) req) as [res b']. cbn [fst snd].
  destruct (chat_reply res) as [response|e] eqn:Hreply.
  - eexists. split_and!; [reflexivity|done|done].
  - eexists. split_and!; [reflexivity|by right|]. intros _. split; [done|].
    unfold bind, log, ret. cbn [fst snd].
    transitivity (history_of (after_chat agent message req res b' w) agent);
      [done|].
    rewrite history_after_chat, decide_True by done. by rewrite Hreply.
Qed.

(** X26: the task endpoint answers 503, and touches nothing, when the
    agents have no [coordinator]; otherwise it runs the task on the
    coordinator, and a failing run becomes a 500 whose detail is the text
    of the exception, with every history as it was before. *)
Theorem task_endpoint_replies agents (task : string) w :
  let '(r, w') := submit_task agents task w in
  ∃ reply,
    r = Ok reply ∧
    match PyDict.get "coordinator" agents with
    | None =>
        reply = HTTPException 503 "Coordinator agent not available" ∧ w' = w
    | Some coordinator =>
        match (run coordinator task None w).1 with
        | Ok response =>
            reply = Response [("response", PStr response)] ∧
            w' = (run coordinator task None w).2
        | Raise e =>
            reply = HTTPException 500 (exn_str e) ∧
            histories w' = histories w
        end
    end.
Proof.
  unfold submit_task.
  destruct (PyDict.get "coordinator" agents) as [coordinator|]; [|by eexists].
  unfold try_except, bind at 1. rewrite run_unfold. cbv zeta.
  set (req := run_request _ _).
  destruct (client_generate (backend w) req) as [[response|e] b'];
    cbn [fst snd]; by eexists.
Qed.

(** What the three constructors have in common: a new object with the
    next identity and an empty history; and the coordinator starts with an
    empty registry. *)
Lemma agent_init_spec (init : M B BaseAgent) (agent_name : string) w :
  (init = ResearcherAgent_init "deepseek-r1:8b" 0.7 None ∧ agent_name = "Researcher") ∨
  (init = CoderAgent_init "qwen2.5:7b" 0.3 None ∧ agent_name = "Coder") ∨
  (init = CoordinatorAgent_init "llama3.2" 0.5 None ∧ agent_name = "Coordinator") →
  ∃ agent w',
    init w = (Ok agent, w') ∧
    name (config agent) = agent_name ∧
    agent_id agent = next_id w ∧
    next_id w' = S (next_id w) ∧
    histories w' = <[next_id w := []]> (histories w) ∧
    ((agent_name = "Coordinator" →
      registries w' = <[next_id w := []]> (registries w)) ∧
     (agent_name ≠ "Coordinator" → registries w' = registries w)) ∧
    events w' = events w ∧
    backend w' = backend w.
Proof.
  intros [[-> ->]|[[-> ->]|[-> ->]]]; eexists _, _;
    (split; [reflexivity|]); cbn [config name agent_id next_id histories
                                   registries events backend];
    split_and!; done.
Qed.

(** X27: whatever the agents dictionary held, the start-up puts a
    researcher, a coder and a coordinator under [researcher], [coder] and
    [coordinator], three different objects with empty histories; the
    coordinator's registry lists exactly [Researcher] and [Coder], in this
    order, holding these two agents; the other keys of the dictionary keep
    their agents; and no call goes to the transport. *)
Theorem startup_agents_registers agents w :
  let '(r, w') := startup_agents agents w in
  ∃ agents' researcher coder coordinator,
    r = Ok agents' ∧
    PyDict.get "researcher" agents' = Some researcher ∧
    PyDict.get "coder" agents' = Some coder ∧
    PyDict.get "coordinator" agents' = Some coordinator ∧
    NoDup [agent_id researcher; agent_id coder; agent_id coordinator] ∧
    Forall (λ agent, history_of w' agent = []) [researcher; coder; coordinator] ∧
    (list_available_agents coordinator w').1 = Ok ["Researcher"; "Coder"] ∧
    PyDict.get "Researcher" (available_agents_of w' coordinator) = Some researcher ∧
    PyDict.get "Coder" (available_agents_of w' coordinator) = Some coder ∧
    (∀ key, key ∉ ["researcher"; "coder"; "coordinator"] →
            PyDict.get key agents' = PyDict.get key agents) ∧
    events w' = events w ∧ backend w' = backend w.
Proof.
  unfold startup_agents.
  destruct (agent_init_spec (ResearcherAgent_init "deepseek-r1:8b" 0.7 None)
              "Researcher" w) as (researcher & w1 & H1 & Hn1 & Hi1 & Hx1 & Hh1 & Hg1 & He1 & Hb1);
    [by left|].
  destruct (agent_init_spec (CoderAgent_init "qwen2.5:7b" 0.3 None)
              "Coder" w1) as (coder & w2 & H2 & Hn2 & Hi2 & Hx2 & Hh2 & Hg2 & He2 & Hb2);
    [by right; left|].
  destruct (agent_init_spec (CoordinatorAgent_init "llama3.2" 0.5 None)
              "Coordinator" w2) as (coordinator & w3 & H3 & Hn3 & Hi3 & Hx3 & Hh3 & Hg3 & He3 & Hb3);
    [by right; right|].
  unfold bind at 1. rewrite H1. unfold bind at 1. rewrite H2.
  unfold bind at 1. rewrite H3.
  unfold bind at 1. rewrite (register_agent_unfold coordinator researcher w3).
  unfold bind at 1. rewrite register_agent_unfold.
  unfold bind, log, ret. cbn [fst snd].
  set (w4 := {| histories := histories w3 |}).
  assert (available_agents_of w3 coordinator = []) as Hreg3.
  { unfold available_agents_of. destruct Hg3 as [Hg3 _].
    by rewrite Hi3, (Hg3 eq_refl), lookup_insert_eq. }
  assert (available_agents_of w4 coordinator = [("Researcher", researcher)])
    as Hreg4.
  { unfold available_agents_of, w4. cbn [registries].
    rewrite lookup_insert_eq. cbn [default]. by rewrite Hreg3, Hn1. }
  rewrite Hreg4, Hn2. cbn [PyDict.set]. rewrite decide_False by done.
  cbn [PyDict.set]. clear Hreg4. subst w4.
  exists (PyDict.set "coordinator" coordinator
            (PyDict.set "coder" coder (PyDict.set "researcher" researcher agents))),
    researcher, coder, coordinator.
  split; [reflexivity|]. split_and!.
  - rewrite !PyDictFacts.get_set_ne by done. apply PyDictFacts.get_set_eq.
  - rewrite PyDictFacts.get_set_ne by done. apply PyDictFacts.get_set_eq.
  - apply PyDictFacts.get_set_eq.
  - rewrite Hi1, Hi2, Hi3, Hx2, Hx1. apply NoDup_cons. split.
    { rewrite !not_elem_of_cons. split_and!; [lia|lia|apply not_elem_of_nil]. }
    apply NoDup_cons. split.
    { rewrite !not_elem_of_cons. split_and!; [lia|apply not_elem_of_nil]. }
    apply NoDup_singleton.
  - repeat apply Forall_cons_2; [..|apply Forall_nil_2];
      unfold history_of; cbn [histories];
      rewrite Hh3, Hh2, Hh1, ?Hi1, ?Hi2, ?Hi3, ?Hx2, ?Hx1.
    + rewrite !lookup_insert_ne by lia. by rewrite lookup_insert_eq.
    + rewrite !lookup_insert_ne by lia. by rewrite lookup_insert_eq.
    + by rewrite lookup_insert_eq.
  - unfold list_available_agents, bind, get_available_agents, ret,
      available_agents_of.
    cbn [fst snd registries]. by rewrite !lookup_insert_eq.
  - unfold available_agents_of. cbn [registries].
    by rewrite !lookup_insert_eq.
  - unfold available_agents_of. cbn [registries].
    by rewrite !lookup_insert_eq.
  - intros key Hkey. rewrite !not_elem_of_cons in Hkey.
    destruct Hkey as (? & ? & ? & _).
    by rewrite !PyDictFacts.get_set_ne.
  - cbn [events]. by rewrite He3, He2, He1.
  - cbn [backend]. by rewrite Hb3, Hb2, Hb1.
Qed.
End Facts.

Section HealthFacts.
Context {H : Type} `{!OllamaClient.Http H}.

(** X28: the health endpoint never fails: it always answers with status
    [ok], and reports the connection as down whenever the server has no
    client yet or the client's request raised. *)
Theorem health_endpoint_total (ollama_client : option OllamaClient.t)
    (w : World H) :
  ∃ connected,
    (health_check ollama_client w).1 =
      Ok [("status", PStr "ok"); ("ollama_connected", PBool connected)] ∧
    (ollama_client = None → connected = false) ∧
    (∀ client e h',
       ollama_client = Some client →
       OllamaClient.http_get (backend w) (OllamaClient.host client) = (Raise e, h') →
       connected = false).
Proof.
  unfold health_check, bind, ret.
  destruct ollama_client as [client|]; simpl.
  - unfold OllamaClient.check_health, try_except, bind, OllamaClient.get, ret,
      log.
    destruct (OllamaClient.http_get (backend w) (OllamaClient.host client))
      as [[response|e] h'] eqn:Hget; simpl.
    + eexists. split_and!; [reflexivity|done|].
      intros client' e h'' [= <-]. by rewrite Hget.
    + exists false. split_and!; done.
  - exists false. split_and!; done.
Qed.
End HealthFacts.
End ServerFacts.

(** * Examples *)


(** The results block of the synthesis prompt, on two agents. *)
Example format_results_two_agents :
  _format_results [("Researcher", ["r1"; "r2"]); ("Coder", ["c1"])] =
    nl +:+ "=== RESEARCHER ===" +:+ nl
    +:+ nl +:+ "Subtarea 1:" +:+ nl +:+ "r1" +:+ nl +:+ nl
    +:+ nl +:+ "Subtarea 2:" +:+ nl +:+ "r2" +:+ nl +:+ nl
    +:+ nl +:+ "=== CODER ===" +:+ nl
    +:+ nl +:+ "Subtarea 1:" +:+ nl +:+ "c1" +:+ nl.
Proof. reflexivity. Qed.


Lemma run_failure_keeps_history_witness :
  let self := example_agent 0 "Researcher" in
  let w := init_world {| gen_replies := [Raise ConnectError]; chat_replies := [] |} in
  let '(r, w') := run self "2+2" None w in
  r = Raise ConnectError ∧
  histories w' = histories w ∧
  (get_conversation_history self w').1 = (get_conversation_history self w).1.
Proof.
  apply (run_failure_keeps_history (example_agent 0 "Researcher") "2+2" None
           (init_world {| gen_replies := [Raise ConnectError]; chat_replies := [] |})
           ConnectError {| gen_replies := []; chat_replies := [] |}).
  reflexivity.
Defined.

Lemma run_prompt_witness :
  _prepare_prompt "Summarise" (Some [("lang", PStr "es"); ("limit", PInt 3)])
    = "Context:" +:+ nl +:+ "lang: es" +:+ nl +:+ "limit: 3" +:+ nl +:+ nl
      +:+ "Task:" +:+ nl +:+ "Summarise".
Proof.
  destruct (run_prompt (example_agent 0 "Researcher") "Summarise"
              (init_world {| gen_replies := []; chat_replies := [] |}))
    as (_ & _ & _ & Hblock).
  destruct (Hblock ("lang", PStr "es") [("limit", PInt 3)])
    as (block & -> & -> & _).
  reflexivity.
Defined.

Lemma chat_failure_keeps_user_turn_witness :
  let self := example_agent 0 "Researcher" in
  let w := init_world {| gen_replies := []; chat_replies := [Raise ConnectError] |} in
  let '(r, w') := chat self "hello" w in
  r = Raise ConnectError ∧
  (get_conversation_history self w').1 = Ok ([] ++ [user_turn (PStr "hello")]).
Proof.
  apply (chat_failure_keeps_user_turn (example_agent 0 "Researcher") "hello"
           (init_world {| gen_replies := []; chat_replies := [Raise ConnectError] |})
           ConnectError {| gen_replies := []; chat_replies := [] |}).
  reflexivity.
Defined.


Lemma chat_history_alternates_witness :
  let self := example_agent 0 "Researcher" in
  let w := init_world
             {| gen_replies := [];
                chat_replies :=
                  [Ok [("message", PDict [("role", PStr "assistant");
                                          ("content", PStr "hello")])];
                   Ok [("message", PDict [("content", PStr "bye")])]] |} in
  (get_conversation_history self (chat_all self ["hi"; "again"] w).2).1 =
    Ok [user_turn (PStr "hi"); assistant_turn (PStr "hello");
        user_turn (PStr "again"); assistant_turn (PStr "bye")].
Proof.
  intros self w.
  assert (chat_all self ["hi"; "again"] w
            = (Ok [PStr "hello"; PStr "bye"],
               (chat_all self ["hi"; "again"] w).2)) as Hall.
  { vm_compute. reflexivity. }
  destruct (chat_history_alternates self ["hi"; "again"] w
              [PStr "hello"; PStr "bye"] _ Hall) as (_ & _ & Hempty).
  apply Hempty. reflexivity.
Defined.

Lemma register_agent_last_wins_witness :
  let self := example_agent 0 "Coordinator" in
  let A := example_agent 1 "Researcher" in
  let A' := example_agent 2 "Researcher" in
  let w' := (register_agent self A' (register_agent self A
               (init_world {| gen_replies := []; chat_replies := [] |})).2).2 in
  (list_available_agents self w').1 = Ok ["Researcher"] ∧
  PyDict.get "Researcher" (available_agents_of w' self) = Some A'.
Proof.
  intros self A A' w'.
  pose proof (register_agent_last_wins self A A'
                (init_world {| gen_replies := []; chat_replies := [] |})
                eq_refl (PyDictFacts.wf_nil)) as Hlast.
  simpl in Hlast. destruct Hlast as (_ & _ & Hget).
  split; [reflexivity | exact Hget].
Defined.

(** The transport fails on the second subtask: two calls, no synthesis. *)
Lemma delegation_failure_aborts_witness :
  let w := team_world {| gen_replies := [Ok "r1"; Raise ConnectError];
                         chat_replies := [] |} in
  let agent_tasks := [("Researcher", ["t1"; "t2"; "t3"]); ("Coder", ["t4"])] in
  let '(r, w') := delegate_and_synthesize the_coordinator "T" agent_tasks w in
  r = Raise ConnectError ∧
  @nil Event = [] ∧
  events w' =
    events w ++ [EvGenerate (run_request the_researcher "t1") (Ok "r1")]
      ++ [EvGenerate (run_request the_researcher "t2") (Raise ConnectError)].
Proof.
  intros w agent_tasks.
  pose proof (delegation_failure_aborts the_coordinator "T" agent_tasks w
                [EvGenerate (run_request the_researcher "t1") (Ok "r1")]
                (run_request the_researcher "t2") ConnectError []) as Habort.
  assert (events (delegate the_coordinator agent_tasks [] w).2 =
            events w
              ++ [EvGenerate (run_request the_researcher "t1") (Ok "r1")]
              ++ [EvGenerate (run_request the_researcher "t2")
                    (Raise ConnectError)]) as Hraised.
  { vm_compute. reflexivity. }
  exact (Habort Hraised).
Defined.

(** The end-to-end example: two agents, one subtask each, three calls. *)
Lemma delegation_call_sequence_witness :
  let w := team_world
             {| gen_replies := [Ok "A function that calls itself.";
                                Ok "def fact(n): ...";
                                Ok "Recursion is ..."];
                chat_replies := [] |} in
  let agent_tasks := [("Researcher", ["Define recursion"]);
                      ("Coder", ["Write a factorial example"])] in
  let w' := (delegate_and_synthesize the_coordinator "Explain recursion"
               agent_tasks w).2 in
  length (events w') = 3 ∧
  generate_calls (events w') =
    [run_request the_researcher "Define recursion";
     run_request the_coder "Write a factorial example";
     run_request the_coordinator
       (synthesis_task "Explain recursion"
          [("Researcher", ["A function that calls itself."]);
           ("Coder", ["def fact(n): ..."])])] ∧
  (delegate_and_synthesize the_coordinator "Explain recursion" agent_tasks w).1
    = Ok "Recursion is ...".
Proof.
  intros w agent_tasks w'.
  pose proof (delegation_call_sequence the_coordinator "Explain recursion"
                agent_tasks w (events w')) as Hseq.
  assert (∀ agent_name,
            agent_name ∈ PyDict.keys agent_tasks →
            agent_name ∈ PyDict.keys (available_agents_of w the_coordinator))
    as Hreg.
  { intros agent_name Hin. apply list_elem_of_In in Hin. simpl in Hin.
    apply list_elem_of_In. vm_compute. tauto. }
  assert (events (delegate_and_synthesize the_coordinator "Explain recursion"
                    agent_tasks w).2 = events w ++ events w') as Hev.
  { vm_compute. reflexivity. }
  assert (Forall (λ ev, event_ok ev = true) (events w')) as Hok.
  { vm_compute. repeat constructor. }
  destruct (Hseq Hreg Hev Hok) as (_ & Hlen & _).
  split_and!; [exact Hlen | vm_compute; reflexivity..].
Defined.

(** The delegation map names an agent nobody registered. *)
Lemma unknown_agent_skipped_witness :
  let w := team_world {| gen_replies := [Ok "Nothing to merge."];
                         chat_replies := [] |} in
  let w' :=
    (delegate_and_synthesize the_coordinator "T" [("X", ["t1"; "t2"])] w).2 in
  events w' =
    events w
      ++ [EvGenerate (run_request the_coordinator (synthesis_task "T" []))
            (Ok "Nothing to merge.")] ∧
  (WARNING, "Agent X not available, skipping") ∈ logs w'.
Proof.
  intros w w'.
  assert (PyDict.get "X" (available_agents_of w the_coordinator) = None)
    as Hnone.
  { vm_compute. reflexivity. }
  destruct (unknown_agent_skipped the_coordinator "T" "X" ["t1"; "t2"] w Hnone)
    as (_ & _ & Hall).
  assert (∀ other,
            other ∈ PyDict.keys [("X", ["t1"; "t2"])] →
            PyDict.get other (available_agents_of w the_coordinator) = None)
    as Hunknown.
  { intros other Hin. apply list_elem_of_In in Hin. simpl in Hin.
    destruct Hin as [<-|[]]. exact Hnone. }
  destruct (Hall _ Hunknown) as (res & Hres & Hev & _).
  split.
  - fold w' in Hev. rewrite Hev. f_equal. f_equal. rewrite <- Hres.
    vm_compute. reflexivity.
  - apply list_elem_of_In. vm_compute. tauto.
Defined.

(** ** Examples for the further properties *)

Lemma chat_after_run_sends_run_turns_witness :
  let self := example_agent 0 "Researcher" in
  let w := init_world {| gen_replies := [Ok "4"];
                         chat_replies := [Ok [("message", PDict [("content", PStr "yes")])]] |} in
  let w1 := (run self "2+2" None w).2 in
  map (λ ev, match ev with
             | EvChat req _ => c_messages req
             | EvGenerate _ _ => []
             end) (events (chat self "sure?" w1).2)
    = [[];
       [user_turn (PStr "2+2"); assistant_turn (PStr "4");
        user_turn (PStr "sure?")]].
Proof.
  intros self w w1.
  assert (client_generate (backend w)
            (run_request self (_prepare_prompt "2+2" None))
          = (Ok "4",
             {| gen_replies := [];
                chat_replies :=
                  [Ok [("message", PDict [("content", PStr "yes")])]] |}))
    as Hgen by reflexivity.
  destruct (chat_after_run_sends_run_turns self "2+2" None "sure?" w "4" _
              Hgen) as [res Hev].
  fold w1 in Hev. rewrite Hev. vm_compute. reflexivity.
Defined.

Lemma run_chat_frame_witness :
  let self := example_agent 0 "Researcher" in
  let other := example_agent 1 "Coder" in
  let w := init_world {| gen_replies := [Ok "4"]; chat_replies := [] |} in
  history_of (run self "2+2" None w).2 other = [] ∧
  history_of (run self "2+2" None w).2 self ≠ [].
Proof.
  intros self other w.
  assert (agent_id other ≠ agent_id self) as Hne by (vm_compute; lia).
  destruct (run_chat_frame self other "2+2" None "hi" w Hne) as (Hrun & _).
  split; [rewrite Hrun; reflexivity | vm_compute; discriminate].
Defined.

Lemma chat_message_not_mapping_witness :
  let self := example_agent 0 "Researcher" in
  let w := init_world {| gen_replies := [];
                         chat_replies := [Ok [("message", PStr "hello")]] |} in
  (chat self "hi" w).1 =
    Raise (Exception "AttributeError" "'str' object has no attribute 'get'") ∧
  history_of (chat self "hi" w).2 self = [user_turn (PStr "hi")].
Proof.
  intros self w.
  pose proof (chat_message_not_mapping self "hi" w [("message", PStr "hello")]
                {| gen_replies := []; chat_replies := [] |} (PStr "hello")
                eq_refl eq_refl) as Hchat.
  assert (∀ d, PStr "hello" ≠ PDict d) as Hfield by (intros d; discriminate).
  specialize (Hchat Hfield).
  destruct (chat self "hi" w) as [r w']. destruct Hchat as (-> & Hhist & _).
  split; [reflexivity | exact Hhist].
Defined.

Lemma registrations_keep_registry_witness :
  let self := example_agent 0 "Coordinator" in
  let agents := [example_agent 1 "Researcher"; example_agent 2 "Coder";
                 example_agent 3 "Researcher"] in
  let w := init_world {| gen_replies := []; chat_replies := [] |} in
  let w' := (register_all self agents w).2 in
  (list_available_agents self w').1 = Ok ["Researcher"; "Coder"] ∧
  PyDict.get "Researcher" (available_agents_of w' self)
    = Some (example_agent 3 "Researcher").
Proof.
  intros self agents w w'.
  destruct (registrations_keep_registry self agents w PyDictFacts.wf_nil)
    as (_ & Hget & _).
  split; [vm_compute; reflexivity|].
  fold w' in Hget. rewrite Hget. vm_compute. reflexivity.
Defined.

Lemma delegation_results_witness :
  let w := team_world
             {| gen_replies := [Ok "r1"; Ok "r2"; Ok "c1"; Ok "final"];
                chat_replies := [] |} in
  let agent_tasks := [("Researcher", ["t1"; "t2"]); ("Nobody", ["t3"]);
                      ("Coder", ["t4"])] in
  let w' := (delegate_and_synthesize the_coordinator "T" agent_tasks w).2 in
  last (generate_calls (events w'))
    = Some (run_request the_coordinator
              (synthesis_task "T" [("Researcher", ["r1"; "r2"]);
                                   ("Coder", ["c1"])])) ∧
  responses (events w') = ["r1"; "r2"; "c1"; "final"].
Proof.
  intros w agent_tasks w'.
  assert (PyDict.wf agent_tasks) as Hwf.
  { unfold PyDict.wf. apply (bool_decide_unpack _). vm_compute. exact I. }
  assert (events (delegate_and_synthesize the_coordinator "T" agent_tasks w).2
            = events w ++ events w') as Hev.
  { vm_compute. reflexivity. }
  assert (Forall (λ ev, event_ok ev = true) (events w')) as Hok.
  { vm_compute. repeat constructor. }
  destruct (delegation_results the_coordinator "T" agent_tasks w (events w')
              Hwf Hev Hok) as (results & final & _ & _ & _ & Hres & _).
  split; vm_compute; reflexivity.
Defined.

Lemma plan_task_capabilities_block_witness :
  _format_capabilities
    (collect_capabilities [("Researcher", the_researcher); ("Coder", the_coder)])
  = "- Researcher: " +:+ String.concat ", " ResearcherAgent_get_capabilities
    +:+ nl +:+ "- Coder: " +:+ String.concat ", " CoderAgent_get_capabilities.
Proof.
  assert (PyDict.wf [("Researcher", the_researcher); ("Coder", the_coder)])
    as Hwf.
  { unfold PyDict.wf. apply (bool_decide_unpack _). vm_compute. exact I. }
  rewrite (plan_task_capabilities_block _ Hwf). vm_compute. reflexivity.
Defined.


Lemma generate_result_witness :
  let self := {| OllamaClient.host := "http://localhost:11434";
                 OllamaClient.timeout := 60 |} in
  let w := init_world
             {| get_replies := [];
                post_replies := [Ok (http_ok (PDict [("done", PBool true)]))] |} in
  (OllamaClient.generate self "llama3.2" "hi" None 0.5 None false w).1
    = Ok (PStr "") ∧
  (OllamaClient.generate self "llama3.2" "hi" None 0.5 None true w).1
    = Ok PNone.
Proof.
  intros self w.
  assert (∀ stream,
            OllamaClient.http_post (backend w)
              (OllamaClient.host self +:+ "/api/generate")
              (PDict (OllamaClient.generate_payload "llama3.2" "hi" None 0.5
                        None stream))
            = (Ok (http_ok (PDict [("done", PBool true)])),
               {| get_replies := []; post_replies := [] |})) as Hpost
    by (intros stream; reflexivity).
  split.
  - destruct (OllamaClientFacts.generate_result self "llama3.2" "hi" None 0.5
                None false w _ _ (Hpost false) eq_refl) as [_ Hplain].
    exact (Hplain eq_refl _ eq_refl).
  - destruct (OllamaClientFacts.generate_result self "llama3.2" "hi" None 0.5
                None true w _ _ (Hpost true) eq_refl) as [Hstream _].
    exact (Hstream eq_refl).
Defined.

Lemma unknown_model_key_witness :
  (ModelManager.ensure_model_available fresh_manager "gpt-4"
     (init_world two_installed)).1 = Ok (false, fresh_manager) ∧
  backend (ModelManager.ensure_model_available fresh_manager "gpt-4"
             (init_world two_installed)).2 = two_installed.
Proof.
  destruct (ModelManagerFacts.unknown_model_key fresh_manager "gpt-4"
              (init_world two_installed) eq_refl) as [-> _].
  split; reflexivity.
Defined.

(** [qwen2.5:7b] is installed, and is pulled all the same. *)
Lemma tagged_model_always_pulled_witness :
  pulled (backend (ModelManager.ensure_model_available fresh_manager "qwen2.5"
                     (init_world two_installed)).2) = ["qwen2.5:7b"].
Proof.
  pose proof (ModelManagerFacts.tagged_model_always_pulled fresh_manager
                "qwen2.5"
                (default
                   {| ModelManager.name := ""; ModelManager.size_gb := 0;
                      ModelManager.vram_usage_gb := 0;
                      ModelManager.tier := ModelManager.TIER_1;
                      ModelManager.description := "";
                      ModelManager.strengths := [];
                      ModelManager.use_cases := [];
                      ModelManager.ollama_name := "" |}
                   (PyDict.get "qwen2.5" ModelManager.MODELS_CATALOG))
                (init_world two_installed) (installed two_installed)
                two_installed ["qwen2.5"; "llama3.2"] false
                {| installed := installed two_installed;
                   pulled := ["qwen2.5:7b"] |}
                eq_refl eq_refl eq_refl eq_refl eq_refl) as Hpull.
  destruct (ModelManager.ensure_model_available fresh_manager "qwen2.5"
              (init_world two_installed)) as [r w'].
  destruct Hpull as (_ & Hfalse & _). destruct (Hfalse eq_refl) as [_ Hb].
  cbn [snd]. rewrite Hb. reflexivity.
Defined.

(** [llama3.2] has no tag, is found under [llama3.2:latest] and not pulled. *)
Lemma listed_model_not_pulled_witness :
  pulled (backend (ModelManager.ensure_model_available fresh_manager "llama3.2"
                     (init_world two_installed)).2) = [].
Proof.
  pose proof (ModelManagerFacts.listed_model_not_pulled fresh_manager
                "llama3.2"
                (default
                   {| ModelManager.name := ""; ModelManager.size_gb := 0;
                      ModelManager.vram_usage_gb := 0;
                      ModelManager.tier := ModelManager.TIER_1;
                      ModelManager.description := "";
                      ModelManager.strengths := [];
                      ModelManager.use_cases := [];
                      ModelManager.ollama_name := "" |}
                   (PyDict.get "llama3.2" ModelManager.MODELS_CATALOG))
                (init_world two_installed) (installed two_installed)
                two_installed ["qwen2.5"; "llama3.2"]
                eq_refl eq_refl eq_refl eq_refl) as Hlisted.
  destruct (ModelManager.ensure_model_available fresh_manager "llama3.2"
              (init_world two_installed)) as [r w'].
  destruct Hlisted as [_ Hb]. cbn [snd]. rewrite Hb. reflexivity.
Defined.

Lemma get_recommended_model_total_witness :
  let w := init_world two_installed in
  (ModelManager.get_recommended_model "Coding" w).1
    = Ok (PyDict.get "qwen2.5" ModelManager.MODELS_CATALOG) ∧
  (ModelManager.get_recommended_model "Coding" w).2 = w.
Proof.
  intros w.
  pose proof (ModelManagerFacts.get_recommended_model_total "Coding" w) as Hrec.
  cbv zeta in Hrec.
  destruct (ModelManager.get_recommended_model "Coding" w) as [r w'].
  destruct Hrec as (model_key & info & -> & Hinfo & _ & _ & Hascii).
  assert (is_ascii "Coding" = true) as Hcoding by reflexivity.
  specialize (Hascii Hcoding).
  vm_compute in Hascii.
  destruct Hascii as [-> ->]. cbn [fst snd].
  split; [by rewrite Hinfo | reflexivity].
Defined.

Lemma chat_endpoint_replies_witness :
  let agents := [("researcher", the_researcher)] in
  let w := team_world
             {| gen_replies := [];
                chat_replies := [Ok [("message", PDict [("content", PStr "hi")])]] |} in
  (Server.chat_with_agent agents "Researcher" "hello" w).1
    = Ok (Server.Response [("response", PStr "hi")]) ∧
  (Server.chat_with_agent agents "Nobody" "hello" w).1
    = Ok (Server.HTTPException 404 "Agent 'nobody' not found").
Proof.
  intros agents w. split.
  - pose proof (ServerFacts.chat_endpoint_replies agents "Researcher" "hello" w)
      as Hreply.
    destruct (Server.chat_with_agent agents "Researcher" "hello" w) as [r w'].
    destruct Hreply as (reply & -> & _ & Hascii).
    assert (is_ascii "Researcher" = true) as Hid by reflexivity.
    specialize (Hascii Hid). vm_compute in Hascii.
    destruct Hascii as [-> _]. reflexivity.
  - pose proof (ServerFacts.chat_endpoint_replies agents "Nobody" "hello" w)
      as Hreply.
    destruct (Server.chat_with_agent agents "Nobody" "hello" w) as [r w'].
    destruct Hreply as (reply & -> & _ & Hascii).
    assert (is_ascii "Nobody" = true) as Hid by reflexivity.
    specialize (Hascii Hid). vm_compute in Hascii.
    destruct Hascii as [-> _]. reflexivity.
Defined.
